(** * TezosNodeWriter: the operation lifecycle pipeline of ConseilJS

    A shallow embedding of [src/chain/tezos/TezosNodeWriter.ts]: reveal
    bundling, local and remote forging, signing, preapplication, validation of
    the applied results, injection, and the public [send*] entry points.

    Conventions of the embedding.
    - A JavaScript [number] is an integer [Z]; the chain accessor returns
      integer counters and the callers pass integer amounts and fees.  The
      embedding coincides with the source on safe integers, where [+] is exact
      and [toString] prints plain decimal digits.
    - A JavaScript string is a [string]; [undefined] is [None].
    - An operation that is assigned to after it was built is an [Object]: its
      address and its fields.  Two entries of an array with one address are
      one object, and an assignment to a field of an object shows at every
      entry with its address.  Code that only reads operations is given their
      fields.
    - A [Buffer] is a list of bytes.
    - An [async] function is a value of [Promise]: a finite tree of awaited
      requests to the outside world (chain accessor, node RPC, signing
      backends).  [run] interprets it against an arbitrary node and records the
      requests in the order they are issued.
    - A thrown exception is [Err]; logging calls are dropped.
    - The codec, the hint encodings, the digest, the Michelson translator, the
      JSON parser and the constants table live outside this file of the
      repository: they are the methods of the type classes below. *)

From Stdlib Require Import ZArith String Ascii List Bool Lia DecimalString.
From Stdlib.Strings Require Import Byte.
Import ListNotations.
Local Open Scope string_scope.
Local Open Scope list_scope.
Local Open Scope Z_scope.

Set Implicit Arguments.
Set Warnings "-register-all".

(* ================================================================= *)
(** ** JavaScript built-ins used by the source *)

Module JS.

Definition number := Z.

(** [Number.prototype.toString()] on an integer. *)
Definition number_toString (n : number) : string :=
  NilZero.string_of_int (Z.to_int n).

(** Truthiness of [string | undefined], as in [!!delegate]. *)
Definition truthy (s : option string) : bool :=
  match s with
  | Some s => negb (s =? "")%string
  | None => false
  end.

(** [Array.prototype.includes] on strings (strict equality). *)
Definition includes (l : list string) (x : string) : bool :=
  existsb (String.eqb x) l.

(** The keys a [for (let t in array)] loop enumerates for a dense array:
    its indices, as strings. *)
Definition keys {A : Type} (l : list A) : list string :=
  map (fun i => number_toString (Z.of_nat i)) (seq 0 (length l)).

(** [s.replace(/c/g, '')] for a class of single characters: every matching
    character is dropped. *)
Fixpoint remove_chars (p : ascii -> bool) (s : string) : string :=
  match s with
  | EmptyString => EmptyString
  | String c rest =>
      if p c then remove_chars p rest else String c (remove_chars p rest)
  end.

Definition is_newline (c : ascii) : bool := (c =? "010")%char.
Definition is_quote (c : ascii) : bool := (c =? "039")%char || (c =? "034")%char.

(** ASCII white space and line terminators, as [String.prototype.trim]
    strips them. *)
Definition is_space (c : ascii) : bool :=
  let n := nat_of_ascii c in
  (Nat.eqb n 32 || (Nat.leb 9 n && Nat.leb n 13))%bool.

(** [s.trim().length > 0]: some character is not white space. *)
Fixpoint trim_nonempty (s : string) : bool :=
  match s with
  | EmptyString => false
  | String c rest => negb (is_space c) || trim_nonempty rest
  end.

(** *** Buffers and the ['hex'] encoding *)

Definition Buffer := list byte.

Definition hex_value (c : ascii) : option N :=
  let n := N_of_ascii c in
  if ((48 <=? n) && (n <=? 57))%N then Some (n - 48)%N
  else if ((97 <=? n) && (n <=? 102))%N then Some (n - 87)%N
  else if ((65 <=? n) && (n <=? 70))%N then Some (n - 55)%N
  else None.

Definition byte_of_nibbles (hi lo : N) : byte :=
  match Byte.of_N (16 * hi + lo) with
  | Some b => b
  | None => x00
  end.

(** [Buffer.from(s, 'hex')]: pairs of hexadecimal digits are decoded from
    the left; decoding stops at the first pair that is not hexadecimal, and
    a trailing single character is ignored. *)
Fixpoint from_hex (s : string) : Buffer :=
  match s with
  | String a (String b rest) =>
      match hex_value a, hex_value b with
      | Some hi, Some lo => byte_of_nibbles hi lo :: from_hex rest
      | _, _ => []
      end
  | _ => []
  end.

Definition hex_char (n : N) : ascii :=
  if (n <? 10)%N then ascii_of_N (48 + n) else ascii_of_N (87 + n).

(** [buffer.toString('hex')]. *)
Fixpoint to_hex (b : Buffer) : string :=
  match b with
  | [] => EmptyString
  | x :: rest =>
      let n := Byte.to_N x in
      String (hex_char (n / 16)) (String (hex_char (n mod 16)) (to_hex rest))
  end.

(** *** Parsed JSON values (Micheline trees, node metadata) *)

Inductive Json : Type :=
| JNull
| JBool (b : bool)
| JNumber (n : number)
| JString (s : string)
| JArray (items : list Json)
| JObject (fields : list (string * Json)).

(** Truthiness of a parsed value, as in [code ? ... : undefined]. *)
Definition Json_truthy (j : Json) : bool :=
  match j with
  | JNull => false
  | JBool b => b
  | JNumber n => negb (n =? 0)
  | JString s => negb (s =? "")%string
  | JArray _ | JObject _ => true
  end.

(** [`${s}`] for [s : string | undefined]. *)
Definition optional_toString (s : option string) : string :=
  match s with
  | Some s => s
  | None => "undefined"
  end.

End JS.
Import JS.

(* ================================================================= *)
(** ** Exceptions and results *)

Inductive Exn : Type :=
| JsError (message : string)   (* throw new Error(message) *)
| TypeError                    (* a property read on undefined *)
| Failure (reason : string).   (* raised by an external collaborator *)

Inductive Result (A : Type) : Type :=
| Ok (a : A)
| Err (e : Exn).
Arguments Err {A} e.

Definition Result_bind {A B : Type} (r : Result A) (f : A -> Result B) : Result B :=
  match r with
  | Ok a => f a
  | Err e => Err e
  end.

Declare Scope result_scope.
Delimit Scope result_scope with result.
Notation "x <- r ;; k" := (Result_bind r (fun x => k))
  (at level 61, r at next level, right associativity) : result_scope.

(** The results of a list of computations, or the first failure. *)
Fixpoint Result_all {A : Type} (rs : list (Result A)) : Result (list A) :=
  match rs with
  | [] => Ok []
  | r :: rest => (a <- r ;; others <- Result_all rest ;; Ok (a :: others))%result
  end.

(** A parsed value placed in a template literal: [`${v}`].  An array prints
    its elements separated by commas, [null] elements as nothing.  A plain
    object prints as [[object Object]] through the [toString] it inherits;
    when it has a field named [toString] of its own, that field is not a
    function and the conversion throws a type error. *)
Fixpoint Json_toString (j : Json) : Result string :=
  match j with
  | JNull => Ok "null"
  | JBool true => Ok "true"
  | JBool false => Ok "false"
  | JNumber n => Ok (number_toString n)
  | JString s => Ok s
  | JArray items =>
      (texts <-
         Result_all
           (map (fun e => match e with JNull => Ok "" | _ => Json_toString e end) items) ;;
       Ok (String.concat "," texts))%result
  | JObject fields =>
      if existsb (fun field => (fst field =? "toString")%string) fields
      then Err TypeError
      else Ok "[object Object]"
  end.

(* ================================================================= *)
(** ** Data model *)

(** Modelled from the spec: the [StoreType] discriminator of
    [types/wallet/KeyStore], which is not part of this file. *)
Inductive StoreType : Type := Software | Fundraiser | Hardware.

(** [KeyStore], as far as this file reads it. *)
Record KeyStore : Type := {
  publicKey : string;
  privateKey : string;
  publicKeyHash : string;
  storeType : StoreType
}.

(** [TezosRPCTypes.TezosBlock], as far as this file reads it. *)
Record TezosBlock : Type := {
  hash : string;
  protocol : string
}.

Record Script : Type := {
  code : Json;
  storage : option Json
}.

(** [TezosP2PMessageTypes.Operation]: one JavaScript object type for every
    kind; a field the kind does not carry is [undefined]. *)
Record Operation : Type := {
  kind : string;
  source : option string;
  fee : option string;
  counter : option string;
  gas_limit : option string;
  storage_limit : option string;
  public_key : option string;
  destination : option string;
  amount : option string;
  parameters : option Json;
  delegate : option string;
  manager_pubkey : option string;
  balance : option string;
  spendable : option bool;
  delegatable : option bool;
  script : option Script;
  pkh : option string;
  secret : option string
}.

(** The assignment [operation.counter = c]. *)
Definition set_counter (operation : Operation) (c : string) : Operation :=
  {| kind := kind operation;
     source := source operation;
     fee := fee operation;
     counter := Some c;
     gas_limit := gas_limit operation;
     storage_limit := storage_limit operation;
     public_key := public_key operation;
     destination := destination operation;
     amount := amount operation;
     parameters := parameters operation;
     delegate := delegate operation;
     manager_pubkey := manager_pubkey operation;
     balance := balance operation;
     spendable := spendable operation;
     delegatable := delegatable operation;
     script := script operation;
     pkh := pkh operation;
     secret := secret operation |}.

(** An operation object in memory: its address and its fields. *)
Record Object : Type := {
  address : nat;
  fields : Operation
}.

(** The assignment [operation.counter = c] to the object at address [a]:
    every entry of [array] that is this object shows the new counter. *)
Definition assign_counter (a : nat) (c : string) (array : list Object) : list Object :=
  map (fun o =>
         if Nat.eqb (address o) a
         then {| address := address o; fields := set_counter (fields o) c |}
         else o)
    array.

(** An object literal, alone in a new array [[{...}]]. *)
Definition literal (op : Operation) : Object := {| address := 0; fields := op |}.

(** An address no object of [array] has: where a new object is put. *)
Definition fresh_address (array : list Object) : nat :=
  S (list_max (map address array)).

(** The assignment [transaction.parameters = p]. *)
Definition set_parameters (operation : Operation) (p : Json) : Operation :=
  {| kind := kind operation;
     source := source operation;
     fee := fee operation;
     counter := counter operation;
     gas_limit := gas_limit operation;
     storage_limit := storage_limit operation;
     public_key := public_key operation;
     destination := destination operation;
     amount := amount operation;
     parameters := Some p;
     delegate := delegate operation;
     manager_pubkey := manager_pubkey operation;
     balance := balance operation;
     spendable := spendable operation;
     delegatable := delegatable operation;
     script := script operation;
     pkh := pkh operation;
     secret := secret operation |}.

(** [TezosTypes.SignedOperationGroup]. *)
Record SignedOperationGroup : Type := {
  bytes : Buffer;
  signature : string
}.

(** One entry of [contents] in a preapply result. *)
Record OperationContentsAndResult : Type := {
  contents_kind : string;
  metadata : Json
}.

(** [TezosTypes.AlphaOperationsWithMetadata]: one element of the preapply
    result array; [kind] and [id] are present only when the node reports an
    error. *)
Record AlphaOperationsWithMetadata : Type := {
  applied_kind : option string;
  applied_id : option string;
  applied_contents : list OperationContentsAndResult
}.

(** [TezosTypes.OperationResult]; [results] is [appliedOp[0]]. *)
Record OperationResult : Type := {
  results : option AlphaOperationsWithMetadata;
  operationGroupID : string
}.

Inductive TezosParameterFormat : Type := Michelson | Micheline.

(** The body of the preapply request: an array of objects. *)
Record PreapplyItem : Type := {
  item_protocol : string;
  item_branch : string;
  item_contents : list Operation;
  item_signature : string
}.

(** What [performPostRequest] is given as [payload]. *)
Inductive Payload : Type :=
| ForgePayload (branch : string) (contents : list Operation)
| PreapplyPayload (items : list PreapplyItem)
| TextPayload (text : string).

(** [`${payload}`] for the preapply payload: an array prints its elements
    separated by commas and a plain object prints as [[object Object]]. *)
Definition Payload_toString (p : Payload) : string :=
  match p with
  | ForgePayload _ _ => "[object Object]"
  | PreapplyPayload items =>
      String.concat "," (map (fun _ : PreapplyItem => "[object Object]") items)
  | TextPayload text => text
  end.

(* ================================================================= *)
(** ** External collaborators *)

(** [types/tezos/TezosConstants]: the constants this file reads. *)
Class TezosConstants : Type := {
  OperationGroupWatermark : string;
  DefaultTransactionStorageLimit : number;
  DefaultTransactionGasLimit : number;
  DefaultDelegationFee : number;
  DefaultDelegationStorageLimit : number;
  DefaultAccountOriginationFee : number;
  DefaultAccountOriginationStorageLimit : number;
  DefaultAccountOriginationGasLimit : number;
  DefaultKeyRevealFee : number
}.

(** [TezosMessageCodec] and the branch writer of [TezosMessageUtils]: the
    binary codec; a malformed field is an exception. *)
Class TezosMessageCodec : Type := {
  writeBranch : string -> Result string;
  encodeOperation : Operation -> Result string;
  parseOperationGroup : string -> Result (list Operation)
}.

(** The hint encodings of [TezosMessageUtils] and the digest of
    [CryptoUtils]. *)
Class TezosMessageUtils : Type := {
  writeKeyWithHint : string -> string -> Buffer;
  readSignatureWithHint : Buffer -> string -> string;
  simpleHash : Buffer -> number -> Buffer
}.

(** [TezosLanguageUtil.translateMichelsonToMicheline] and [JSON.parse];
    [parseApplied] is [JSON.parse] on the preapply response, read at the type
    the source casts it to. *)
Class TezosLanguageUtil : Type := {
  translateMichelsonToMicheline : string -> Result string;
  JSON_parse : string -> Result Json;
  parseApplied : string -> option (list AlphaOperationsWithMetadata)
}.

(* ================================================================= *)
(** ** Asynchronous computations *)

(** The requests this file awaits: the read-only chain accessor
    ([TezosNodeReader]), the HTTP POST of [performPostRequest] together with
    the [response.text()] that always follows it, and the two signing
    backends. *)
Inductive Request : Type :=
| getBlockHead (server : string)
| getCounterForAccount (server accountHash : string)
| isManagerKeyRevealedForAccount (server accountHash : string)
| performPostRequest (server command : string) (payload : Payload)
| signTezosOperation (derivationPath watermarkedHex : string)
| signDetached (digest key : Buffer).

Definition Response (r : Request) : Type :=
  match r with
  | getBlockHead _ => TezosBlock
  | getCounterForAccount _ _ => number
  | isManagerKeyRevealedForAccount _ _ => bool
  | performPostRequest _ _ _ => string
  | signTezosOperation _ _ => Buffer
  | signDetached _ _ => Buffer
  end.

(** An [async] function body: it returns, throws, or awaits a request and
    continues with the answer. *)
Inductive Promise (A : Type) : Type :=
| Return (a : A)
| Throw (e : Exn)
| Await (r : Request) (k : Response r -> Promise A).
Arguments Throw {A} e.

Fixpoint Promise_bind {A B : Type} (p : Promise A) (f : A -> Promise B) : Promise B :=
  match p with
  | Return a => f a
  | Throw e => Throw e
  | Await r k => Await r (fun x => Promise_bind (k x) f)
  end.

Definition await (r : Request) : Promise (Response r) :=
  Await r (fun x => Return x).

(** A synchronous call inside an [async] body. *)
Definition sync {A : Type} (r : Result A) : Promise A :=
  match r with
  | Ok a => Return a
  | Err e => Throw e
  end.

Declare Scope promise_scope.
Delimit Scope promise_scope with promise.
Notation "x <- p ;; k" := (Promise_bind p (fun x => k))
  (at level 61, p at next level, right associativity) : promise_scope.

(** The outside world: a node answers a request in a state of the world and
    moves to the next state; an answer may be a failure. *)
Definition Node (World : Type) : Type :=
  forall r : Request, World -> Result (Response r) * World.

(** The outcome of a call: its result, the final state of the world, and the
    requests issued, oldest first. *)
Record Outcome (World A : Type) : Type := {
  result : Result A;
  world : World;
  trace : list Request
}.

Definition logged {World A : Type} (r : Request) (o : Outcome World A) : Outcome World A :=
  {| result := result o; world := world o; trace := r :: trace o |}.

Fixpoint run {World A : Type} (node : Node World) (p : Promise A) (w : World)
  : Outcome World A :=
  match p with
  | Return a => {| result := Ok a; world := w; trace := [] |}
  | Throw e => {| result := Err e; world := w; trace := [] |}
  | Await r k =>
      match node r w with
      | (Ok x, w') => logged r (run node (k x) w')
      | (Err e, w') => {| result := Err e; world := w'; trace := [r] |}
      end
  end.

(* ================================================================= *)
(** ** The functions of [TezosNodeWriter] *)

Module TezosNodeWriter.
Section Writer.
Context {constants : TezosConstants} {codec : TezosMessageCodec}
        {utils : TezosMessageUtils} {lang : TezosLanguageUtil}.

Local Open Scope promise_scope.

(** [signOperationGroup] *)
Definition signOperationGroup (forgedOperation : string) (keyStore : KeyStore)
    (derivationPath : string) : Promise SignedOperationGroup :=
  let watermarkedForgedOperationBytesHex :=
    (OperationGroupWatermark ++ forgedOperation)%string in
  opSignature <-
    match storeType keyStore with
    | Hardware =>
        await (signTezosOperation derivationPath watermarkedForgedOperationBytesHex)
    | _ =>
        let hashedWatermarkedOpBytes :=
          simpleHash (from_hex watermarkedForgedOperationBytesHex) 32 in
        let privateKeyBytes := writeKeyWithHint (privateKey keyStore) "edsk" in
        await (signDetached hashedWatermarkedOpBytes privateKeyBytes)
    end ;;
  let hexSignature := readSignatureWithHint opSignature "edsig" in
  let signedOpBytes := from_hex forgedOperation ++ opSignature in
  Return {| bytes := signedOpBytes; signature := hexSignature |}.

(** A parameter with a default value: [fee: number = TezosConstants.X]. *)
Definition default (value : option number) (d : number) : number :=
  match value with
  | Some v => v
  | None => d
  end.

(** [forgeOperations]: [encoded] starts as the branch and every operation
    appends its encoding, in the order of [forEach]. *)
Definition forgeOperations (branch : string) (operations : list Operation)
    : Result string :=
  fold_left
    (fun (encoded : Result string) (m : Operation) =>
       (encoded <- encoded ;;
        e <- encodeOperation m ;;
        Ok (encoded ++ e)%string)%result)
    operations
    (writeBranch branch).

(** The loop [for (let t in optypes) { validate = [...].includes(t);
    if (validate) { break; } }] of [forgeOperationsRemotely]. *)
Fixpoint validate_loop (ts : list string) (validate : bool) : bool :=
  match ts with
  | [] => validate
  | t :: rest =>
      let validate :=
        includes ["reveal"; "transaction"; "delegation"; "origination"] t in
      if validate then validate else validate_loop rest validate
  end.

(** Strict inequality [!==] on [string | undefined] and on
    [boolean | undefined]. *)
Definition differ (a b : option string) : bool :=
  match a, b with
  | Some x, Some y => negb (x =? y)%string
  | None, None => false
  | _, _ => true
  end.

Definition differ_bool (a b : option bool) : bool :=
  match a, b with
  | Some x, Some y => negb (Bool.eqb x y)
  | None, None => false
  | _, _ => true
  end.

(** The body of the loop over [operations] in [forgeOperationsRemotely], for
    [clientop = operations[i]] and [serverop = decoded[i]]. *)
Definition validate_operation (clientop : Operation) (serverop : option Operation)
    : Result unit :=
  if (kind clientop =? "transaction")%string then
    match serverop with
    | None => Err TypeError
    | Some serverop =>
        if negb (kind serverop =? kind clientop)%string
           || differ (fee serverop) (fee clientop)
           || differ (amount serverop) (amount clientop)
           || differ (destination serverop) (destination clientop)
        then Err (JsError "Forged transaction failed validation.")
        else Ok tt
    end
  else if (kind clientop =? "delegation")%string then
    match serverop with
    | None => Err TypeError
    | Some serverop =>
        if negb (kind serverop =? kind clientop)%string
           || differ (fee serverop) (fee clientop)
           || differ (delegate serverop) (delegate clientop)
        then Err (JsError "Forged delegation failed validation.")
        else Ok tt
    end
  else if (kind clientop =? "origination")%string then
    match serverop with
    | None => Err TypeError
    | Some serverop =>
        if negb (kind serverop =? kind clientop)%string
           || differ (fee serverop) (fee clientop)
           || differ (balance serverop) (balance clientop)
           || differ_bool (spendable serverop) (spendable clientop)
           || differ_bool (delegatable serverop) (delegatable clientop)
           || differ (delegate serverop) (delegate clientop)
           || match script serverop with Some _ => true | None => false end
        then Err (JsError "Forged origination failed validation.")
        else Ok tt
    end
  else Ok tt.

(** [for (let i = 0; i < operations.length; i++)], from index [i] on. *)
Fixpoint validate_operations (i : nat) (remaining decoded : list Operation)
    : Result unit :=
  match remaining with
  | [] => Ok tt
  | clientop :: rest =>
      (_ <- validate_operation clientop (nth_error decoded i) ;;
       validate_operations (S i) rest decoded)%result
  end.

(** [forgeOperationsRemotely] *)
Definition forgeOperationsRemotely (server : string) (blockHead : TezosBlock)
    (operations : list Operation) : Promise string :=
  forgedOperation <-
    await (performPostRequest server
             "chains/main/blocks/head/helpers/forge/operations"
             (ForgePayload (hash blockHead) operations)) ;;
  let ops := remove_chars is_quote (remove_chars is_newline forgedOperation) in
  let optypes := map kind operations in
  let validate := validate_loop (keys optypes) false in
  _ <- sync (if validate
             then (decoded <- parseOperationGroup ops ;;
                   validate_operations 0 operations decoded)%result
             else Ok tt) ;;
  Return ops.

(** [applyOperation] *)
Definition applyOperation (server branch protocol : string)
    (operations : list Operation) (signedOpGroup : SignedOperationGroup)
    : Promise (list AlphaOperationsWithMetadata) :=
  let payload :=
    PreapplyPayload
      [ {| item_protocol := protocol;
           item_branch := branch;
           item_contents := operations;
           item_signature := signature signedOpGroup |} ] in
  text <-
    await (performPostRequest server
             "chains/main/blocks/head/helpers/preapply/operations" payload) ;;
  match parseApplied text with
  | Some json => Return json
  | None =>
      Throw (JsError
        ("Could not parse JSON response from chains/main/blocks/head/helpers/preapply/operation: '"
           ++ text ++ "' for " ++ Payload_toString payload)%string)
  end.

Definition validAppliedKinds : list string :=
  ["activate_account"; "reveal"; "transaction"; "origination"; "delegation"].

(** The loop [for (const op of firstAppliedOp.contents)] of
    [checkAppliedOperationResults]. *)
Fixpoint check_contents (contents : list OperationContentsAndResult) : Result unit :=
  match contents with
  | [] => Ok tt
  | op :: rest =>
      if negb (includes validAppliedKinds (contents_kind op))
      then (text <- Json_toString (metadata op) ;;
            Err (JsError ("Could not apply operation because: " ++ text)%string))%result
      else check_contents rest
  end.

(** [checkAppliedOperationResults] *)
Definition checkAppliedOperationResults (appliedOp : list AlphaOperationsWithMetadata)
    : Result unit :=
  match nth_error appliedOp 0 with
  | None => Err TypeError
  | Some firstAppliedOp =>
      if match applied_kind firstAppliedOp with
         | Some k => negb (includes validAppliedKinds k)
         | None => false
         end
      then Err (JsError
             ("Could not apply operation because "
                ++ optional_toString (applied_id firstAppliedOp))%string)
      else check_contents (applied_contents firstAppliedOp)
  end.

(** [injectOperation] *)
Definition injectOperation (server : string) (signedOpGroup : SignedOperationGroup)
    : Promise string :=
  injectedOperation <-
    await (performPostRequest server "injection/operation?chain=main"
             (TextPayload (to_hex (bytes signedOpGroup)))) ;;
  Return injectedOperation.

(** [sendOperation] *)
Definition sendOperation (server : string) (operations : list Operation)
    (keyStore : KeyStore) (derivationPath : string) : Promise OperationResult :=
  blockHead <- await (getBlockHead server) ;;
  forgedOperationGroup <- sync (forgeOperations (hash blockHead) operations) ;;
  signedOpGroup <- signOperationGroup forgedOperationGroup keyStore derivationPath ;;
  appliedOp <-
    applyOperation server (hash blockHead) (protocol blockHead) operations signedOpGroup ;;
  _ <- sync (checkAppliedOperationResults appliedOp) ;;
  injectedOperation <- injectOperation server signedOpGroup ;;
  Return {| results := nth_error appliedOp 0; operationGroupID := injectedOperation |}.

(** [operations.forEach((operation, index) => ...)] in
    [appendRevealOperation], from index [index] on: [remaining] are the
    entries still to visit and [operations] is the array as the visits so
    far have left it.  Each visit assigns to the counter of the object it
    is given. *)
Fixpoint forEach_counter (accountOperationIndex : number) (index : nat)
    (remaining operations : list Object) : list Object :=
  match remaining with
  | [] => operations
  | operation :: rest =>
      let c := accountOperationIndex + 2 + Z.of_nat index in
      forEach_counter accountOperationIndex (S index) rest
        (assign_counter (address operation) (number_toString c) operations)
  end.

(** The whole loop: the array after every entry was visited. *)
Definition renumber (accountOperationIndex : number) (operations : list Object)
    : list Object :=
  forEach_counter accountOperationIndex 0 operations operations.

(** [appendRevealOperation].  The counters are assigned in place, and the
    reveal is a new object. *)
Definition appendRevealOperation (server : string) (keyStore : KeyStore)
    (accountHash : string) (accountOperationIndex : number)
    (operations : list Object) : Promise (list Object) :=
  isKeyRevealed <- await (isManagerKeyRevealedForAccount server accountHash) ;;
  let counter_ := accountOperationIndex + 1 in
  if negb isKeyRevealed then
    let revealOp :=
      {| kind := "reveal";
         source := Some accountHash;
         fee := Some "0";
         counter := Some (number_toString counter_);
         gas_limit := Some "10600";
         storage_limit := Some "0";
         public_key := Some (publicKey keyStore);
         destination := None; amount := None; parameters := None;
         delegate := None; manager_pubkey := None; balance := None;
         spendable := None; delegatable := None; script := None;
         pkh := None; secret := None |} in
    Return ({| address := fresh_address operations; fields := revealOp |}
              :: renumber accountOperationIndex operations)
  else Return operations.

(** [sendTransactionOperation] *)
Definition sendTransactionOperation (server : string) (keyStore : KeyStore)
    (to : string) (amount_ fee_ : number) (derivationPath : string)
    : Promise OperationResult :=
  current <- await (getCounterForAccount server (publicKeyHash keyStore)) ;;
  let counter_ := current + 1 in
  let transaction :=
    {| destination := Some to;
       amount := Some (number_toString amount_);
       storage_limit := Some (number_toString DefaultTransactionStorageLimit);
       gas_limit := Some (number_toString DefaultTransactionGasLimit);
       counter := Some (number_toString counter_);
       fee := Some (number_toString fee_);
       source := Some (publicKeyHash keyStore);
       kind := "transaction";
       public_key := None; parameters := None; delegate := None;
       manager_pubkey := None; balance := None; spendable := None;
       delegatable := None; script := None; pkh := None; secret := None |} in
  operations <-
    appendRevealOperation server keyStore (publicKeyHash keyStore) (counter_ - 1)
      [literal transaction] ;;
  sendOperation server (map fields operations) keyStore derivationPath.

(** [sendDelegationOperation] *)
Definition sendDelegationOperation (server : string) (keyStore : KeyStore)
    (delegator : string) (delegate_ : option string) (fee_ : option number)
    (derivationPath : string) : Promise OperationResult :=
  let fee_ := default fee_ DefaultDelegationFee in
  current <- await (getCounterForAccount server delegator) ;;
  let counter_ := current + 1 in
  let delegation :=
    {| kind := "delegation";
       source := Some delegator;
       fee := Some (number_toString fee_);
       counter := Some (number_toString counter_);
       storage_limit := Some (number_toString DefaultDelegationStorageLimit);
       gas_limit := Some (number_toString DefaultDelegationStorageLimit);
       delegate := delegate_;
       public_key := None; destination := None; amount := None;
       parameters := None; manager_pubkey := None; balance := None;
       spendable := None; delegatable := None; script := None;
       pkh := None; secret := None |} in
  operations <-
    appendRevealOperation server keyStore delegator (counter_ - 1)
      [literal delegation] ;;
  sendOperation server (map fields operations) keyStore derivationPath.

(** [sendUndelegationOperation] *)
Definition sendUndelegationOperation (server : string) (keyStore : KeyStore)
    (delegator : string) (fee_ : option number) (derivationPath : string)
    : Promise OperationResult :=
  let fee_ := default fee_ DefaultDelegationFee in
  sendDelegationOperation server keyStore delegator None (Some fee_) derivationPath.

(** [sendOriginationOperation] *)
Definition sendOriginationOperation (server : string) (keyStore : KeyStore)
    (amount_ : number) (delegate_ : option string) (spendable_ delegatable_ : bool)
    (fee_ : number) (derivationPath : string) (storage_limit_ gas_limit_ : number)
    (code_ storage_ : option Json) : Promise OperationResult :=
  current <- await (getCounterForAccount server (publicKeyHash keyStore)) ;;
  let counter_ := current + 1 in
  let origination :=
    {| kind := "origination";
       source := Some (publicKeyHash keyStore);
       fee := Some (number_toString fee_);
       counter := Some (number_toString counter_);
       gas_limit := Some (number_toString gas_limit_);
       storage_limit := Some (number_toString storage_limit_);
       manager_pubkey := Some (publicKeyHash keyStore);
       balance := Some (number_toString amount_);
       spendable := Some spendable_;
       delegatable := Some (delegatable_ && truthy delegate_);
       delegate := delegate_;
       script :=
         match code_ with
         | Some c =>
             if Json_truthy c then Some {| code := c; storage := storage_ |} else None
         | None => None
         end;
       public_key := None; destination := None; amount := None;
       parameters := None; pkh := None; secret := None |} in
  operations <-
    appendRevealOperation server keyStore (publicKeyHash keyStore) (counter_ - 1)
      [literal origination] ;;
  sendOperation server (map fields operations) keyStore derivationPath.

(** [sendAccountOriginationOperation] *)
Definition sendAccountOriginationOperation (server : string) (keyStore : KeyStore)
    (amount_ : number) (delegate_ : option string) (spendable_ delegatable_ : bool)
    (fee_ : option number) (derivationPath : string) : Promise OperationResult :=
  let fee_ := default fee_ DefaultAccountOriginationFee in
  sendOriginationOperation server keyStore amount_ delegate_ spendable_ delegatable_
    fee_ derivationPath DefaultAccountOriginationStorageLimit
    DefaultAccountOriginationGasLimit None None.

(** [sendContractOriginationOperation] *)
Definition sendContractOriginationOperation (server : string) (keyStore : KeyStore)
    (amount_ : number) (delegate_ : option string) (spendable_ delegatable_ : bool)
    (fee_ : number) (derivationPath : string) (storage_limit_ gas_limit_ : number)
    (code_ storage_ : string) (codeFormat : TezosParameterFormat)
    : Promise OperationResult :=
  parsed <-
    sync (match codeFormat with
          | Michelson =>
              (c <- translateMichelsonToMicheline code_ ;;
               parsedCode <- JSON_parse c ;;
               s <- translateMichelsonToMicheline storage_ ;;
               parsedStorage <- JSON_parse s ;;
               Ok (Some parsedCode, Some parsedStorage))%result
          | Micheline =>
              (parsedCode <- JSON_parse code_ ;;
               parsedStorage <- JSON_parse storage_ ;;
               Ok (Some parsedCode, Some parsedStorage))%result
          end) ;;
  sendOriginationOperation server keyStore amount_ delegate_ spendable_ delegatable_
    fee_ derivationPath storage_limit_ gas_limit_ (fst parsed) (snd parsed).

(** [sendContractInvocationOperation] *)
Definition sendContractInvocationOperation (server : string) (keyStore : KeyStore)
    (to : string) (amount_ fee_ : number) (derivationPath : string)
    (storageLimit gasLimit : number) (parameters_ : option string)
    (parameterFormat : TezosParameterFormat) : Promise OperationResult :=
  current <- await (getCounterForAccount server (publicKeyHash keyStore)) ;;
  let counter_ := current + 1 in
  let transaction :=
    {| destination := Some to;
       amount := Some (number_toString amount_);
       storage_limit := Some (number_toString storageLimit);
       gas_limit := Some (number_toString gasLimit);
       counter := Some (number_toString counter_);
       fee := Some (number_toString fee_);
       source := Some (publicKeyHash keyStore);
       kind := "transaction";
       public_key := None; parameters := None; delegate := None;
       manager_pubkey := None; balance := None; spendable := None;
       delegatable := None; script := None; pkh := None; secret := None |} in
  transaction <-
    sync (match parameters_ with
          | Some p =>
              if truthy parameters_ && trim_nonempty p then
                match parameterFormat with
                | Michelson =>
                    (michelineParams <- translateMichelsonToMicheline p ;;
                     j <- JSON_parse michelineParams ;;
                     Ok (set_parameters transaction j))%result
                | Micheline =>
                    (j <- JSON_parse p ;; Ok (set_parameters transaction j))%result
                end
              else Ok transaction
          | None => Ok transaction
          end) ;;
  operations <-
    appendRevealOperation server keyStore (publicKeyHash keyStore) (counter_ - 1)
      [literal transaction] ;;
  sendOperation server (map fields operations) keyStore derivationPath.

(** [sendContractPing] *)
Definition sendContractPing (server : string) (keyStore : KeyStore) (to : string)
    (fee_ : number) (derivationPath : string) (storageLimit gasLimit : number)
    : Promise OperationResult :=
  sendContractInvocationOperation server keyStore to 0 fee_ derivationPath
    storageLimit gasLimit (Some EmptyString) Micheline.

(** [sendKeyRevealOperation] *)
Definition sendKeyRevealOperation (server : string) (keyStore : KeyStore)
    (fee_ : option number) (derivationPath : string) : Promise OperationResult :=
  let fee_ := default fee_ DefaultKeyRevealFee in
  current <- await (getCounterForAccount server (publicKeyHash keyStore)) ;;
  let counter_ := current + 1 in
  let revealOp :=
    {| kind := "reveal";
       source := Some (publicKeyHash keyStore);
       fee := Some (number_toString fee_);
       counter := Some (number_toString counter_);
       gas_limit := Some "10000";
       storage_limit := Some "0";
       public_key := Some (publicKey keyStore);
       destination := None; amount := None; parameters := None;
       delegate := None; manager_pubkey := None; balance := None;
       spendable := None; delegatable := None; script := None;
       pkh := None; secret := None |} in
  let operations := [revealOp] in
  sendOperation server operations keyStore derivationPath.

(** [sendIdentityActivationOperation] *)
Definition sendIdentityActivationOperation (server : string) (keyStore : KeyStore)
    (activationCode derivationPath : string) : Promise OperationResult :=
  let activation :=
    {| kind := "activate_account";
       pkh := Some (publicKeyHash keyStore);
       secret := Some activationCode;
       source := None; fee := None; counter := None; gas_limit := None;
       storage_limit := None; public_key := None; destination := None;
       amount := None; parameters := None; delegate := None;
       manager_pubkey := None; balance := None; spendable := None;
       delegatable := None; script := None |} in
  sendOperation server [activation] keyStore derivationPath.

End Writer.
End TezosNodeWriter.
Import TezosNodeWriter.

(* ================================================================= *)
(** ** Vocabulary of the statements *)

Section Vocabulary.
Context {constants : TezosConstants} {codec : TezosMessageCodec}
        {utils : TezosMessageUtils} {lang : TezosLanguageUtil}.

(** The request [signOperationGroup] awaits, by store type. *)
Definition sign_request (keyStore : KeyStore) (derivationPath forged : string)
    : Request :=
  match storeType keyStore with
  | Hardware =>
      signTezosOperation derivationPath (OperationGroupWatermark ++ forged)%string
  | _ =>
      signDetached
        (simpleHash (from_hex (OperationGroupWatermark ++ forged)%string) 32)
        (writeKeyWithHint (privateKey keyStore) "edsk")
  end.

(** The answer of a node to that request. *)
Definition ask_signature {World : Type} (node : Node World) (keyStore : KeyStore)
    (derivationPath forged : string) (w : World) : Result Buffer * World :=
  match storeType keyStore with
  | Hardware =>
      node (signTezosOperation derivationPath
              (OperationGroupWatermark ++ forged)%string) w
  | _ =>
      node (signDetached
              (simpleHash (from_hex (OperationGroupWatermark ++ forged)%string) 32)
              (writeKeyWithHint (privateKey keyStore) "edsk")) w
  end.

(** The request [applyOperation] posts for a signature [sig]. *)
Definition preapply_request (server : string) (head : TezosBlock)
    (operations : list Operation) (sig : Buffer) : Request :=
  performPostRequest server "chains/main/blocks/head/helpers/preapply/operations"
    (PreapplyPayload
       [ {| item_protocol := protocol head;
            item_branch := hash head;
            item_contents := operations;
            item_signature := readSignatureWithHint sig "edsig" |} ]).

(** The request [injectOperation] posts for forged bytes and a signature. *)
Definition inject_request (server forged : string) (sig : Buffer) : Request :=
  performPostRequest server "injection/operation?chain=main"
    (TextPayload (to_hex (from_hex forged ++ sig))).

(** Every encoding of a list of operations, or the first codec failure. *)
Fixpoint encode_all (operations : list Operation) : Result (list string) :=
  match operations with
  | [] => Ok []
  | m :: rest =>
      (e <- encodeOperation m ;;
       es <- encode_all rest ;;
       Ok (e :: es))%result
  end.

(** The layout the specification gives for a forged group: the branch
    followed by the operations in input order. *)
Definition forged_layout (branch : string) (operations : list Operation)
    : Result string :=
  (b <- writeBranch branch ;;
   es <- encode_all operations ;;
   Ok (b ++ String.concat "" es)%string)%result.

(** The states of the submission pipeline, written out: each state either
    fails the call or moves to the next one; nothing is retried. *)
Definition pipeline {World : Type} (node : Node World) (server : string)
    (operations : list Operation) (keyStore : KeyStore) (derivationPath : string)
    (w : World) : Outcome World OperationResult :=
  let fetch := getBlockHead server in
  match node fetch w with
  | (Err e, w1) => {| result := Err e; world := w1; trace := [fetch] |}
  | (Ok head, w1) =>
  match forgeOperations (hash head) operations with
  | Err e => {| result := Err e; world := w1; trace := [fetch] |}
  | Ok forged =>
  let sign := sign_request keyStore derivationPath forged in
  match ask_signature node keyStore derivationPath forged w1 with
  | (Err e, w2) => {| result := Err e; world := w2; trace := [fetch; sign] |}
  | (Ok sig, w2) =>
  let preapply := preapply_request server head operations sig in
  match node preapply w2 with
  | (Err e, w3) => {| result := Err e; world := w3; trace := [fetch; sign; preapply] |}
  | (Ok text, w3) =>
  match parseApplied text with
  | None =>
      {| result :=
           Err (JsError
             ("Could not parse JSON response from chains/main/blocks/head/helpers/preapply/operation: '"
                ++ text ++ "' for [object Object]")%string);
         world := w3;
         trace := [fetch; sign; preapply] |}
  | Some applied =>
  match checkAppliedOperationResults applied with
  | Err e => {| result := Err e; world := w3; trace := [fetch; sign; preapply] |}
  | Ok _ =>
  let inject := inject_request server forged sig in
  match node inject w3 with
  | (Err e, w4) =>
      {| result := Err e; world := w4; trace := [fetch; sign; preapply; inject] |}
  | (Ok injected, w4) =>
      {| result :=
           Ok {| results := nth_error applied 0; operationGroupID := injected |};
         world := w4;
         trace := [fetch; sign; preapply; inject] |}
  end end end end end end end.

(** The call reached the end of [ValidateApplied]: head fetched, group
    forged, signature obtained, preapply answered, answer parsed, applied
    results accepted; [w3] is the world in which injection is requested. *)
Definition validated {World : Type} (node : Node World) (server : string)
    (operations : list Operation) (keyStore : KeyStore) (derivationPath : string)
    (w : World) (head : TezosBlock) (forged : string) (sig : Buffer)
    (applied : list AlphaOperationsWithMetadata) (w3 : World) : Prop :=
  exists (w1 w2 : World) (text : string),
    node (getBlockHead server) w = (Ok head, w1)
    /\ forgeOperations (hash head) operations = Ok forged
    /\ ask_signature node keyStore derivationPath forged w1 = (Ok sig, w2)
    /\ node (preapply_request server head operations sig) w2 = (Ok text, w3)
    /\ parseApplied text = Some applied
    /\ checkAppliedOperationResults applied = Ok tt.

(** The reveal bundler followed by the pipeline, as every stackable [send*]
    function ends. *)
Definition bundle_and_send (server : string) (keyStore : KeyStore)
    (derivationPath accountHash : string) (base : number) (op : Operation)
    : Promise OperationResult :=
  (operations <-
     appendRevealOperation server keyStore accountHash base [literal op] ;;
   sendOperation server (map fields operations) keyStore derivationPath)%promise.

End Vocabulary.

(** The stages of the pipeline that talk to the outside world. *)
Inductive Stage : Type := FetchHead | Sign | Preapply | Inject | Other.

Definition stage_of (r : Request) : Stage :=
  match r with
  | getBlockHead _ => FetchHead
  | signTezosOperation _ _ | signDetached _ _ => Sign
  | performPostRequest _ command _ =>
      if (command =? "chains/main/blocks/head/helpers/preapply/operations")%string
      then Preapply
      else if (command =? "injection/operation?chain=main")%string then Inject
      else Other
  | _ => Other
  end.

(** The operation groups a trace submitted for preapplication. *)
Definition submitted_contents (requests : list Request) : list (list Operation) :=
  flat_map
    (fun r =>
       match r with
       | performPostRequest _ _ (PreapplyPayload items) => map item_contents items
       | _ => []
       end)
    requests.

(** The first nested entry whose kind is unknown. *)
Definition first_rejected (contents : list OperationContentsAndResult)
    : option OperationContentsAndResult :=
  find (fun op => negb (includes validAppliedKinds (contents_kind op))) contents.

(* ================================================================= *)
(** ** A concrete node and concrete collaborators, for evaluation *)

Module Fixture.

Definition constants : TezosConstants :=
  {| OperationGroupWatermark := "03";
     DefaultTransactionStorageLimit := 300;
     DefaultTransactionGasLimit := 10600;
     DefaultDelegationFee := 1258;
     DefaultDelegationStorageLimit := 0;
     DefaultAccountOriginationFee := 1266;
     DefaultAccountOriginationStorageLimit := 277;
     DefaultAccountOriginationGasLimit := 10160;
     DefaultKeyRevealFee := 1270 |}.

(** A codec that writes the branch and each operation's kind and counter in
    hexadecimal, and that decodes every forged group to [decoded]. *)
Definition codec (decoded : list Operation) : TezosMessageCodec :=
  {| writeBranch := fun branch => Ok (to_hex (list_byte_of_string branch));
     encodeOperation := fun m =>
       Ok (to_hex (list_byte_of_string
                     (kind m ++ optional_toString (counter m))%string));
     parseOperationGroup := fun _ => Ok decoded |}.

Definition utils : TezosMessageUtils :=
  {| writeKeyWithHint := fun key _ => from_hex key;
     readSignatureWithHint := fun sig hint => (hint ++ to_hex sig)%string;
     simpleHash := fun b n => firstn (Z.to_nat n) b |}.

Definition applied_ok : AlphaOperationsWithMetadata :=
  {| applied_kind := None;
     applied_id := None;
     applied_contents :=
       [ {| contents_kind := "transaction"; metadata := JObject [] |} ] |}.

Definition lang : TezosLanguageUtil :=
  {| translateMichelsonToMicheline := fun s => Ok s;
     JSON_parse := fun s => Ok (JString s);
     parseApplied := fun text =>
       if (text =? "applied")%string then Some [applied_ok] else None |}.

(** The state of the chain the node reports. *)
Record Chain : Type := {
  chain_counter : number;
  chain_revealed : bool;
  forge_reply : string;
  preapply_reply : string
}.

Definition node : Node Chain :=
  fun r =>
    match r as r0 return Chain -> Result (Response r0) * Chain with
    | getBlockHead _ => fun w => (Ok {| hash := "BLhead"; protocol := "Pt24m4xi" |}, w)
    | getCounterForAccount _ _ => fun w => (Ok (chain_counter w), w)
    | isManagerKeyRevealedForAccount _ _ => fun w => (Ok (chain_revealed w), w)
    | performPostRequest _ command _ => fun w =>
        if (command =? "injection/operation?chain=main")%string then
          (Ok "ooGroupHash",
           {| chain_counter := chain_counter w + 1;
              chain_revealed := chain_revealed w;
              forge_reply := forge_reply w;
              preapply_reply := preapply_reply w |})
        else if (command =? "chains/main/blocks/head/helpers/preapply/operations")%string
        then (Ok (preapply_reply w), w)
        else (Ok (forge_reply w), w)
    | signTezosOperation _ _ => fun w => (Ok [x01; x02], w)
    | signDetached _ _ => fun w => (Ok [xaa; xbb], w)
    end.

Definition chain (c : number) (revealed : bool) : Chain :=
  {| chain_counter := c;
     chain_revealed := revealed;
     forge_reply := "00";
     preapply_reply := "applied" |}.

Definition keyStore (t : StoreType) : KeyStore :=
  {| publicKey := "edpkPublic";
     privateKey := "00ff";
     publicKeyHash := "tz1Account";
     storeType := t |}.

(** An operation to exercise the bundler and the forger. *)
Definition sample_transaction : Operation :=
  {| kind := "transaction";
     source := Some "tz1Account";
     fee := Some "100000";
     counter := Some "6";
     gas_limit := Some "10600";
     storage_limit := Some "300";
     public_key := None;
     destination := Some "tz1Dest";
     amount := Some "10000000";
     parameters := None; delegate := None; manager_pubkey := None;
     balance := None; spendable := None; delegatable := None;
     script := None; pkh := None; secret := None |}.


(** What a tampering node's forged bytes decode to: the transaction of
    [sample_transaction] with another amount. *)
Definition tampered_transaction : Operation :=
  {| kind := "transaction";
     source := Some "tz1Account";
     fee := Some "100000";
     counter := Some "6";
     gas_limit := Some "10600";
     storage_limit := Some "300";
     public_key := None;
     destination := Some "tz1Dest";
     amount := Some "999";
     parameters := None; delegate := None; manager_pubkey := None;
     balance := None; spendable := None; delegatable := None;
     script := None; pkh := None; secret := None |}.

Definition head : TezosBlock := {| hash := "BLhead"; protocol := "Pt24m4xi" |}.

(** A chain whose preapply endpoint answers with a body that is not JSON. *)
Definition chain_bad_gateway : Chain :=
  {| chain_counter := 5;
     chain_revealed := true;
     forge_reply := "00";
     preapply_reply := "<html>502</html>" |}.

End Fixture.

Unset Implicit Arguments.

(* ================================================================= *)
(** ** Vocabulary of the further statements *)

(** A lower-case hexadecimal digit, as [toString('hex')] writes them. *)
Definition is_lower_hex_digit (c : ascii) : bool :=
  let n := N_of_ascii c in
  (((48 <=? n) && (n <=? 57)) || ((97 <=? n) && (n <=? 102)))%N.

(** A string made of pairs of lower-case hexadecimal digits. *)
Fixpoint lower_hex (s : string) : bool :=
  match s with
  | EmptyString => true
  | String a (String b rest) =>
      is_lower_hex_digit a && is_lower_hex_digit b && lower_hex rest
  | String _ EmptyString => false
  end.

(** A string with an even number of characters. *)
Fixpoint even_length (s : string) : bool :=
  match s with
  | EmptyString => true
  | String _ (String _ rest) => even_length rest
  | String _ EmptyString => false
  end.

(** A decimal string read back as an integer. *)
Definition parse_number (s : string) : option number :=
  option_map Z.of_int (NilZero.int_of_string s).

(** What the loop of [appendRevealOperation] leaves of entries that are
    pairwise distinct objects, from index [index] on: each keeps its address
    and takes the counter of its own position. *)
Fixpoint numbered (base : number) (index : nat) (operations : list Object)
    : list Object :=
  match operations with
  | [] => []
  | o :: rest =>
      {| address := address o;
         fields := set_counter (fields o)
                     (number_toString (base + 2 + Z.of_nat index)) |}
        :: numbered base (S index) rest
  end.

(** The last index at which [remaining] holds the object at address [a]. *)
Fixpoint last_visit (a : nat) (remaining : list Object) : option nat :=
  match remaining with
  | [] => None
  | o :: rest =>
      match last_visit a rest with
      | Some j => Some (S j)
      | None => if Nat.eqb (address o) a then Some 0%nat else None
      end
  end.

(** The reveal operation [appendRevealOperation] builds. *)
Definition bundled_reveal (keyStore : KeyStore) (accountHash : string)
    (base : number) : Operation :=
  {| kind := "reveal";
     source := Some accountHash;
     fee := Some "0";
     counter := Some (number_toString (base + 1));
     gas_limit := Some "10600";
     storage_limit := Some "0";
     public_key := Some (publicKey keyStore);
     destination := None; amount := None; parameters := None;
     delegate := None; manager_pubkey := None; balance := None;
     spendable := None; delegatable := None; script := None;
     pkh := None; secret := None |}.

(** The requests of a whole [send*] call, by kind. *)
Inductive Step : Type :=
| CounterQuery | RevealCheck | HeadFetch | Signing | Preapplication | Injection
| RemoteForge.

Definition step_of (r : Request) : Step :=
  match r with
  | getCounterForAccount _ _ => CounterQuery
  | isManagerKeyRevealedForAccount _ _ => RevealCheck
  | getBlockHead _ => HeadFetch
  | signTezosOperation _ _ | signDetached _ _ => Signing
  | performPostRequest _ command _ =>
      if (command =? "chains/main/blocks/head/helpers/preapply/operations")%string
      then Preapplication
      else if (command =? "injection/operation?chain=main")%string then Injection
      else RemoteForge
  end.

(** The public calls that build one stackable operation and pass it through
    the reveal bundler, with their arguments. *)
Inductive StackableCall : Type :=
| Transaction (to : string) (amount_ fee_ : number)
| Delegation (delegator : string) (delegate_ : option string) (fee_ : option number)
| Undelegation (delegator : string) (fee_ : option number)
| AccountOrigination (amount_ : number) (delegate_ : option string)
    (spendable_ delegatable_ : bool) (fee_ : option number)
| ContractPing (to : string) (fee_ storageLimit gasLimit : number).

Section Calls.
Context {constants : TezosConstants} {codec : TezosMessageCodec}
        {utils : TezosMessageUtils} {lang : TezosLanguageUtil}.

(** The source function behind each call. *)
Definition perform (server : string) (keyStore : KeyStore) (derivationPath : string)
    (call : StackableCall) : Promise OperationResult :=
  match call with
  | Transaction to amount_ fee_ =>
      sendTransactionOperation server keyStore to amount_ fee_ derivationPath
  | Delegation delegator delegate_ fee_ =>
      sendDelegationOperation server keyStore delegator delegate_ fee_ derivationPath
  | Undelegation delegator fee_ =>
      sendUndelegationOperation server keyStore delegator fee_ derivationPath
  | AccountOrigination amount_ delegate_ spendable_ delegatable_ fee_ =>
      sendAccountOriginationOperation server keyStore amount_ delegate_ spendable_
        delegatable_ fee_ derivationPath
  | ContractPing to fee_ storageLimit gasLimit =>
      sendContractPing server keyStore to fee_ derivationPath storageLimit gasLimit
  end.

(** The account whose counter and manager key the call asks about. *)
Definition account_of (keyStore : KeyStore) (call : StackableCall) : string :=
  match call with
  | Delegation delegator _ _ | Undelegation delegator _ => delegator
  | _ => publicKeyHash keyStore
  end.

(** The operation the call builds when the chain reports [current]. *)
Definition built (keyStore : KeyStore) (call : StackableCall) (current : number)
    : Operation :=
  let next := Some (number_toString (current + 1)) in
  match call with
  | Transaction to amount_ fee_ =>
      {| kind := "transaction";
         source := Some (publicKeyHash keyStore);
         fee := Some (number_toString fee_);
         counter := next;
         gas_limit := Some (number_toString DefaultTransactionGasLimit);
         storage_limit := Some (number_toString DefaultTransactionStorageLimit);
         public_key := None;
         destination := Some to;
         amount := Some (number_toString amount_);
         parameters := None; delegate := None; manager_pubkey := None;
         balance := None; spendable := None; delegatable := None;
         script := None; pkh := None; secret := None |}
  | Delegation delegator delegate_ fee_ =>
      {| kind := "delegation";
         source := Some delegator;
         fee := Some (number_toString (default fee_ DefaultDelegationFee));
         counter := next;
         gas_limit := Some (number_toString DefaultDelegationStorageLimit);
         storage_limit := Some (number_toString DefaultDelegationStorageLimit);
         public_key := None; destination := None; amount := None;
         parameters := None;
         delegate := delegate_;
         manager_pubkey := None; balance := None; spendable := None;
         delegatable := None; script := None; pkh := None; secret := None |}
  | Undelegation delegator fee_ =>
      {| kind := "delegation";
         source := Some delegator;
         fee := Some (number_toString (default fee_ DefaultDelegationFee));
         counter := next;
         gas_limit := Some (number_toString DefaultDelegationStorageLimit);
         storage_limit := Some (number_toString DefaultDelegationStorageLimit);
         public_key := None; destination := None; amount := None;
         parameters := None;
         delegate := None;
         manager_pubkey := None; balance := None; spendable := None;
         delegatable := None; script := None; pkh := None; secret := None |}
  | AccountOrigination amount_ delegate_ spendable_ delegatable_ fee_ =>
      {| kind := "origination";
         source := Some (publicKeyHash keyStore);
         fee := Some (number_toString (default fee_ DefaultAccountOriginationFee));
         counter := next;
         gas_limit := Some (number_toString DefaultAccountOriginationGasLimit);
         storage_limit := Some (number_toString DefaultAccountOriginationStorageLimit);
         public_key := None; destination := None; amount := None;
         parameters := None;
         delegate := delegate_;
         manager_pubkey := Some (publicKeyHash keyStore);
         balance := Some (number_toString amount_);
         spendable := Some spendable_;
         delegatable := Some (delegatable_ && truthy delegate_);
         script := None; pkh := None; secret := None |}
  | ContractPing to fee_ storageLimit gasLimit =>
      {| kind := "transaction";
         source := Some (publicKeyHash keyStore);
         fee := Some (number_toString fee_);
         counter := next;
         gas_limit := Some (number_toString gasLimit);
         storage_limit := Some (number_toString storageLimit);
         public_key := None;
         destination := Some to;
         amount := Some "0";
         parameters := None; delegate := None; manager_pubkey := None;
         balance := None; spendable := None; delegatable := None;
         script := None; pkh := None; secret := None |}
  end.

End Calls.

(** Nodes and collaborators that fail, for evaluation. *)
Module Probe.

(** The node of [Fixture], except that the requests of the kinds [fails]
    selects are refused. *)
Definition refusing (fails : Step -> bool) : Node Fixture.Chain :=
  fun r w =>
    if fails (step_of r) then (Err (Failure "connection refused"), w)
    else Fixture.node r w.

Definition is_counter_query (s : Step) : bool :=
  match s with CounterQuery => true | _ => false end.

Definition is_reveal_check (s : Step) : bool :=
  match s with RevealCheck => true | _ => false end.

(** A parser that accepts objects and the literal [null] only, and reads
    every preapply response as an empty array. *)
Definition lang : TezosLanguageUtil :=
  {| translateMichelsonToMicheline := fun s => Ok s;
     JSON_parse := fun s =>
       if (s =? "null")%string then Ok JNull
       else if (s =? "{}")%string then Ok (JObject [])
       else Err (Failure "Unexpected token");
     parseApplied := fun _ => Some [] |}.

(** A preapply result whose nested entry is rejected, with the metadata
    object the node attaches. *)
Definition applied_backtracked : AlphaOperationsWithMetadata :=
  {| applied_kind := None;
     applied_id := None;
     applied_contents :=
       [ {| contents_kind := "backtracked";
            metadata :=
              JObject [("operation_result", JObject [("status", JString "backtracked")])] |} ] |}.

(** An origination that carries a script. *)
Definition contract_origination : Operation :=
  {| kind := "origination";
     source := Some "tz1Account";
     fee := Some "1266";
     counter := Some "6";
     gas_limit := Some "10160";
     storage_limit := Some "277";
     public_key := None; destination := None; amount := None; parameters := None;
     delegate := None;
     manager_pubkey := Some "tz1Account";
     balance := Some "0";
     spendable := Some false;
     delegatable := Some false;
     script := Some {| code := JArray []; storage := Some (JObject []) |};
     pkh := None; secret := None |}.

(** Two operation objects with the same fields. *)
Definition two_objects : list Object :=
  [ {| address := 0; fields := Fixture.sample_transaction |};
    {| address := 1; fields := Fixture.sample_transaction |} ].

(** One operation object listed twice. *)
Definition one_object_twice : list Object :=
  [ {| address := 0; fields := Fixture.sample_transaction |};
    {| address := 0; fields := Fixture.sample_transaction |} ].

End Probe.

(* ================================================================= *)
(** ** Running asynchronous computations *)

Section RunFacts.
Context {World : Type} (node : Node World).

Lemma run_bind {A B : Type} (p : Promise A) (f : A -> Promise B) (w : World) :
  run node (Promise_bind p f) w =
  match result (run node p w) with
  | Ok a =>
      let o := run node (f a) (world (run node p w)) in
      {| result := result o;
         world := world o;
         trace := trace (run node p w) ++ trace o |}
  | Err e =>
      {| result := Err e;
         world := world (run node p w);
         trace := trace (run node p w) |}
  end.
Proof.
  revert w. induction p as [a | e | r k IH]; intro w; simpl.
  - destruct (run node (f a) w); reflexivity.
  - reflexivity.
  - destruct (node r w) as [[x | e] w']; simpl; [ | reflexivity ].
    rewrite IH. destruct (result (run node (k x) w')); reflexivity.
Qed.

Lemma run_sync {A : Type} (r : Result A) (w : World) :
  run node (sync r) w = {| result := r; world := w; trace := [] |}.
Proof. destruct r; reflexivity. Qed.

(** A computation that begins by awaiting [r]. *)
Lemma run_await_bind {A : Type} (r : Request) (f : Response r -> Promise A)
    (w : World) :
  run node (Promise_bind (await r) f) w =
  match node r w with
  | (Ok x, w') => logged r (run node (f x) w')
  | (Err e, w') => {| result := Err e; world := w'; trace := [r] |}
  end.
Proof. reflexivity. Qed.

End RunFacts.

(* ================================================================= *)
(** ** Local forging *)

Lemma string_append_assoc (a b c : string) :
  ((a ++ b) ++ c)%string = (a ++ (b ++ c))%string.
Proof. induction a as [| x a IH]; simpl; [ reflexivity | now rewrite IH ]. Qed.

Lemma string_append_empty (a : string) : (a ++ "")%string = a.
Proof. induction a as [| x a IH]; simpl; [ reflexivity | now rewrite IH ]. Qed.

Section Forging.
Context {codec : TezosMessageCodec}.

Let step (encoded : Result string) (m : Operation) : Result string :=
  (encoded <- encoded ;;
   e <- encodeOperation m ;;
   Ok (encoded ++ e)%string)%result.

Lemma forge_fold_failed (operations : list Operation) (e : Exn) :
  fold_left step operations (Err e) = Err e.
Proof. induction operations as [| m rest IH]; simpl; [ reflexivity | exact IH ]. Qed.

Lemma forge_fold_layout (operations : list Operation) (encoded : string) :
  fold_left step operations (Ok encoded) =
  (es <- encode_all operations ;; Ok (encoded ++ String.concat "" es)%string)%result.
Proof.
  revert encoded. induction operations as [| m rest IH]; intro encoded; simpl.
  - now rewrite string_append_empty.
  - destruct (encodeOperation m) as [e | err]; simpl.
    + rewrite IH. destruct (encode_all rest) as [es | err]; simpl; [ | reflexivity ].
      f_equal. rewrite string_append_assoc. f_equal.
      destruct es as [| e' es]; simpl; [ now rewrite string_append_empty | reflexivity ].
    + apply forge_fold_failed.
Qed.

(** C6. The trusted local forging path is a function of [(branch,
    operations)] alone: equal inputs give equal outputs; its output is the
    encoding of the branch followed by the encodings of the operations in
    input order (or the first codec failure); and it issues no request to
    the outside world. *)
Theorem forgeOperations_deterministic_layout (branch : string)
    (operations : list Operation) :
  forgeOperations branch operations = forged_layout branch operations
  /\ (forall branch' operations',
        branch' = branch -> operations' = operations ->
        forgeOperations branch' operations' = forgeOperations branch operations)
  /\ (forall (World : Type) (node : Node World) (w : World),
        run node (sync (forgeOperations branch operations)) w =
        {| result := forgeOperations branch operations; world := w; trace := [] |}).
Proof.
  split; [ | split ].
  - unfold forgeOperations, forged_layout. fold step.
    destruct (writeBranch branch) as [b | e]; simpl.
    + apply forge_fold_layout.
    + apply forge_fold_failed.
  - intros branch' operations' -> ->. reflexivity.
  - intros World node w. apply run_sync.
Qed.

End Forging.

(* ================================================================= *)
(** ** The reveal bundler *)

Lemma assign_counter_addresses (a : nat) (c : string) (array : list Object) :
  map address (assign_counter a c array) = map address array.
Proof.
  unfold assign_counter. rewrite map_map. apply map_ext.
  intro o. destruct (Nat.eqb (address o) a); reflexivity.
Qed.

Lemma assign_counter_absent (a : nat) (c : string) (array : list Object) :
  ~ In a (map address array) -> assign_counter a c array = array.
Proof.
  induction array as [| o rest IH]; intro H; [ reflexivity | ].
  cbn [assign_counter map] in *.
  destruct (Nat.eqb (address o) a) eqn:Ho.
  - apply Nat.eqb_eq in Ho. elim H. now left.
  - f_equal. apply IH. intro Hin. apply H. now right.
Qed.

Lemma assign_counter_app (a : nat) (c : string) (front back : list Object) :
  assign_counter a c (front ++ back)
  = assign_counter a c front ++ assign_counter a c back.
Proof. unfold assign_counter. apply map_app. Qed.

Lemma numbered_length (base : number) (operations : list Object) :
  forall index : nat, length (numbered base index operations) = length operations.
Proof.
  induction operations as [| o rest IH]; intro index; cbn [numbered length];
    [ reflexivity | now rewrite IH ].
Qed.

Lemma numbered_nth (base : number) (operations : list Object) :
  forall (index i : nat) (o : Object),
    nth_error operations i = Some o ->
    nth_error (numbered base index operations) i =
    Some {| address := address o;
            fields := set_counter (fields o)
                        (number_toString (base + 2 + Z.of_nat (index + i))) |}.
Proof.
  induction operations as [| first rest IH]; intros index i o H.
  - destruct i; discriminate H.
  - destruct i as [| i]; cbn [nth_error numbered] in *.
    + injection H as <-. now rewrite Nat.add_0_r.
    + rewrite (IH (S index) i o H). do 5 f_equal. lia.
Qed.

(** The loop over entries that are pairwise distinct objects. *)
Lemma forEach_counter_distinct (base : number) (remaining : list Object) :
  forall (index : nat) (visited : list Object),
    NoDup (map address (visited ++ remaining)) ->
    forEach_counter base index remaining (visited ++ remaining)
    = visited ++ numbered base index remaining.
Proof.
  induction remaining as [| o rest IH]; intros index visited Hdistinct.
  - reflexivity.
  - cbn [forEach_counter numbered].
    rewrite map_app in Hdistinct. cbn [map] in Hdistinct.
    assert (Hvisited : ~ In (address o) (map address visited)).
    { intro Hin. apply NoDup_remove_2 in Hdistinct. apply Hdistinct.
      apply in_or_app. now left. }
    assert (Hrest : ~ In (address o) (map address rest)).
    { intro Hin. apply NoDup_remove_2 in Hdistinct. apply Hdistinct.
      apply in_or_app. now right. }
    rewrite assign_counter_app. cbn [assign_counter map].
    rewrite Nat.eqb_refl.
    fold (assign_counter (address o)
            (number_toString (base + 2 + Z.of_nat index)) visited).
    fold (assign_counter (address o)
            (number_toString (base + 2 + Z.of_nat index)) rest).
    rewrite (assign_counter_absent _ _ visited Hvisited).
    rewrite (assign_counter_absent _ _ rest Hrest).
    set (o' := {| address := address o;
                  fields := set_counter (fields o)
                              (number_toString (base + 2 + Z.of_nat index)) |}).
    change (visited ++ o' :: rest) with (visited ++ [o'] ++ rest).
    rewrite app_assoc. rewrite IH.
    + now rewrite <- app_assoc.
    + rewrite <- app_assoc, map_app. exact Hdistinct.
Qed.

Lemma renumber_distinct (base : number) (operations : list Object) :
  NoDup (map address operations) ->
  renumber base operations = numbered base 0 operations.
Proof.
  intro H. exact (forEach_counter_distinct base operations 0 [] H).
Qed.

Lemma last_visit_none (a : nat) (remaining : list Object) :
  last_visit a remaining = None ->
  forall (k : nat) (o : Object), nth_error remaining k = Some o -> address o <> a.
Proof.
  induction remaining as [| r rest IH]; intros H k o Hk.
  - destruct k; discriminate Hk.
  - cbn [last_visit] in H.
    destruct (last_visit a rest) as [j | ]; [ discriminate H | ].
    destruct (Nat.eqb (address r) a) eqn:Hr; [ discriminate H | ].
    destruct k as [| k]; cbn [nth_error] in Hk.
    + injection Hk as <-. now apply Nat.eqb_neq.
    + exact (IH eq_refl k o Hk).
Qed.

Lemma last_visit_last (a : nat) (remaining : list Object) :
  forall j : nat,
    last_visit a remaining = Some j ->
    (exists o, nth_error remaining j = Some o /\ address o = a)
    /\ (forall (k : nat) (o : Object),
          nth_error remaining k = Some o -> address o = a -> (k <= j)%nat).
Proof.
  induction remaining as [| r rest IH]; intros j H; [ discriminate H | ].
  cbn [last_visit] in H.
  destruct (last_visit a rest) as [j' | ] eqn:Hrest.
  - injection H as <-. destruct (IH j' eq_refl) as [(o & Ho & Ha) Hmax]. split.
    + exists o. split; [ exact Ho | exact Ha ].
    + intros [| k] o' Hk Ha'; [ lia | ].
      cbn [nth_error] in Hk. specialize (Hmax k o' Hk Ha'). lia.
  - destruct (Nat.eqb (address r) a) eqn:Hr; [ | discriminate H ].
    injection H as <-. apply Nat.eqb_eq in Hr. split.
    + exists r. split; [ reflexivity | exact Hr ].
    + intros [| k] o' Hk Ha'; [ lia | ].
      cbn [nth_error] in Hk. elim (last_visit_none a rest Hrest k o' Hk Ha').
Qed.

Lemma last_visit_member (remaining : list Object) (i : nat) (o : Object) :
  nth_error remaining i = Some o ->
  exists j, last_visit (address o) remaining = Some j.
Proof.
  intro H. destruct (last_visit (address o) remaining) as [j | ] eqn:Hlast.
  - now exists j.
  - elim (last_visit_none _ _ Hlast i o H eq_refl).
Qed.

(** The loop on any array: an entry shows the counter of the last visit to
    its object, and its own counter when the object is not visited. *)
Lemma forEach_counter_nth (base : number) (remaining : list Object) :
  forall (index : nat) (array : list Object) (i : nat) (o : Object),
    nth_error array i = Some o ->
    nth_error (forEach_counter base index remaining array) i =
    Some {| address := address o;
            fields :=
              match last_visit (address o) remaining with
              | Some j =>
                  set_counter (fields o)
                    (number_toString (base + 2 + Z.of_nat (index + j)))
              | None => fields o
              end |}.
Proof.
  induction remaining as [| r rest IH]; intros index array i o H.
  - cbn [forEach_counter last_visit]. destruct o. exact H.
  - cbn [forEach_counter last_visit].
    assert (Hstep : nth_error
                      (assign_counter (address r)
                         (number_toString (base + 2 + Z.of_nat index)) array) i
                    = Some (if Nat.eqb (address o) (address r)
                            then {| address := address o;
                                    fields := set_counter (fields o)
                                                (number_toString
                                                   (base + 2 + Z.of_nat index)) |}
                            else o)).
    { unfold assign_counter. rewrite nth_error_map, H. reflexivity. }
    rewrite (IH (S index) _ i _ Hstep).
    rewrite (Nat.eqb_sym (address r) (address o)).
    destruct (Nat.eqb (address o) (address r)); cbn [address fields];
      destruct (last_visit (address o) rest) as [j | ].
    + do 2 f_equal. unfold set_counter. cbn. do 4 f_equal. lia.
    + now rewrite Nat.add_0_r.
    + do 5 f_equal. lia.
    + reflexivity.
Qed.

Lemma forEach_counter_length (base : number) (remaining : list Object) :
  forall (index : nat) (array : list Object),
    length (forEach_counter base index remaining array) = length array.
Proof.
  induction remaining as [| r rest IH]; intros index array; [ reflexivity | ].
  cbn [forEach_counter]. rewrite IH. unfold assign_counter. apply length_map.
Qed.

Lemma fresh_address_new (array : list Object) :
  ~ In (fresh_address array) (map address array).
Proof.
  unfold fresh_address. intro Hin.
  assert (H : Forall (fun k => (k <= list_max (map address array))%nat)
                (map address array)).
  { apply list_max_le. apply Nat.le_refl. }
  rewrite Forall_forall in H. specialize (H _ Hin). lia.
Qed.

Section Bundler.
Context {World : Type} (node : Node World).

Lemma run_appendRevealOperation (server : string) (keyStore : KeyStore)
    (accountHash : string) (base : number) (operations : list Object) (w : World) :
  run node (appendRevealOperation server keyStore accountHash base operations) w =
  match node (isManagerKeyRevealedForAccount server accountHash) w with
  | (Ok isKeyRevealed, w') =>
      {| result :=
           Ok (if isKeyRevealed then operations
               else {| address := fresh_address operations;
                       fields := bundled_reveal keyStore accountHash base |}
                    :: renumber base operations);
         world := w';
         trace := [isManagerKeyRevealedForAccount server accountHash] |}
  | (Err e, w') =>
      {| result := Err e;
         world := w';
         trace := [isManagerKeyRevealedForAccount server accountHash] |}
  end.
Proof.
  unfold appendRevealOperation. rewrite run_await_bind.
  destruct (node (isManagerKeyRevealedForAccount server accountHash) w)
    as [[[|] | e] w']; reflexivity.
Qed.

(** C1, as the code has it.  When the node answers the revealed-check of
    [appendRevealOperation] with [revealed]: if the manager key is not
    revealed, the result is a new reveal operation (fee ['0'], counter
    [base+1], gas limit ['10600'], storage limit ['0'], public key of the
    key store, source the account, no other field) followed by the input
    operations in their order, each with its counter rewritten and every
    other field as it was.  When the input operations are pairwise distinct
    objects the counter of the [i]-th is [base+2+i]; in general it is
    [base+2+j] for the last position [j] that holds the same object.  If
    the key is revealed the result is the input list. *)
Theorem appendRevealOperation_bundle (server : string) (keyStore : KeyStore)
    (accountHash : string) (base : number) (operations : list Object)
    (revealed : bool) (w w' : World) :
  node (isManagerKeyRevealedForAccount server accountHash) w = (Ok revealed, w') ->
  let out :=
    run node (appendRevealOperation server keyStore accountHash base operations) w in
  let rewritten (o : Object) (c : number) :=
    {| address := address o;
       fields :=
         {| kind := kind (fields o);
            source := source (fields o);
            fee := fee (fields o);
            counter := Some (number_toString c);
            gas_limit := gas_limit (fields o);
            storage_limit := storage_limit (fields o);
            public_key := public_key (fields o);
            destination := destination (fields o);
            amount := amount (fields o);
            parameters := parameters (fields o);
            delegate := delegate (fields o);
            manager_pubkey := manager_pubkey (fields o);
            balance := balance (fields o);
            spendable := spendable (fields o);
            delegatable := delegatable (fields o);
            script := script (fields o);
            pkh := pkh (fields o);
            secret := secret (fields o) |} |} in
  (revealed = false ->
   exists reveal rest,
     result out = Ok (reveal :: rest)
     /\ fields reveal =
        {| kind := "reveal";
           source := Some accountHash;
           fee := Some "0";
           counter := Some (number_toString (base + 1));
           gas_limit := Some "10600";
           storage_limit := Some "0";
           public_key := Some (publicKey keyStore);
           destination := None; amount := None; parameters := None;
           delegate := None; manager_pubkey := None; balance := None;
           spendable := None; delegatable := None; script := None;
           pkh := None; secret := None |}
     /\ ~ In (address reveal) (map address operations)
     /\ length rest = length operations
     /\ (NoDup (map address operations) ->
         forall (i : nat) (o : Object),
           nth_error operations i = Some o ->
           nth_error rest i = Some (rewritten o (base + 2 + Z.of_nat i)))
     /\ (forall (i : nat) (o : Object),
           nth_error operations i = Some o ->
           exists (j : nat) (same : Object),
             nth_error operations j = Some same
             /\ address same = address o
             /\ (forall (k : nat) (other : Object),
                   nth_error operations k = Some other ->
                   address other = address o -> (k <= j)%nat)
             /\ nth_error rest i = Some (rewritten o (base + 2 + Z.of_nat j))))
  /\ (revealed = true -> result out = Ok operations).
Proof.
  intros Hnode out rewritten. subst out rewritten.
  rewrite run_appendRevealOperation, Hnode.
  split; intros ->; cbn [result].
  - eexists; eexists. split; [ reflexivity | ].
    split; [ reflexivity | ].
    split; [ apply fresh_address_new | ].
    split; [ apply forEach_counter_length | ].
    split.
    + intros Hdistinct i o H. rewrite (renumber_distinct base operations Hdistinct).
      rewrite (numbered_nth base operations 0 i o H). reflexivity.
    + intros i o H.
      destruct (last_visit_member operations i o H) as (j & Hj).
      destruct (last_visit_last _ _ j Hj) as [(same & Hsame & Haddress) Hlast].
      exists j, same. split; [ exact Hsame | ]. split; [ exact Haddress | ].
      split; [ exact Hlast | ].
      unfold renumber. rewrite (forEach_counter_nth base operations 0 operations i o H).
      rewrite Hj. reflexivity.
  - reflexivity.
Qed.

End Bundler.

(** The bundler on the concrete node: counter 5, key not revealed, two
    operation objects. *)
Lemma appendRevealOperation_bundle_witness :
  exists reveal rest,
    result (run Fixture.node
              (appendRevealOperation "srv" (Fixture.keyStore Software) "tz1Account" 5
                 Probe.two_objects)
              (Fixture.chain 5 false))
    = Ok (reveal :: rest)
    /\ counter (fields reveal) = Some "6"
    /\ map (fun o => counter (fields o)) rest = [Some "7"; Some "8"]
    /\ map (fun o => amount (fields o)) rest = [Some "10000000"; Some "10000000"]
    /\ option_map (fun o => (counter (fields o), destination (fields o)))
         (nth_error rest 1)
       = Some (Some "8", Some "tz1Dest").
Proof.
  destruct (appendRevealOperation_bundle Fixture.node "srv" (Fixture.keyStore Software)
              "tz1Account" 5 Probe.two_objects false
              (Fixture.chain 5 false) (Fixture.chain 5 false) eq_refl) as [H _].
  assert (Hdistinct : NoDup (map address Probe.two_objects)).
  { cbn. repeat constructor; cbn; intuition discriminate. }
  destruct (H eq_refl) as (reveal & rest & Hres & Hfields & _ & _ & Hnth & _).
  exists reveal, rest. split; [ exact Hres | ].
  split; [ now rewrite Hfields | ].
  split; [ | split ].
  - cbn [result] in Hres. injection Hres as _ <-. reflexivity.
  - cbn [result] in Hres. injection Hres as _ <-. reflexivity.
  - rewrite (Hnth Hdistinct 1%nat _ eq_refl). reflexivity.
Defined.

(** C1, as stated, fails on an operation object that is listed twice: the
    loop assigns to the same object at both visits, so both entries end with
    the counter of the last one, [base+3], and the first is not [base+2]. *)
Lemma appendRevealOperation_shared_object :
  map address Probe.one_object_twice = [0%nat; 0%nat]
  /\ exists out,
       result (run Fixture.node
                 (appendRevealOperation "srv" (Fixture.keyStore Software) "tz1Account" 5
                    Probe.one_object_twice)
                 (Fixture.chain 5 false))
       = Ok out
       /\ map (fun o => counter (fields o)) out = [Some "6"; Some "8"; Some "8"]
       /\ nth_error (map (fun o => counter (fields o)) out) 1
          <> Some (Some (number_toString (5 + 2 + Z.of_nat 0))).
Proof.
  split; [ reflexivity | ]. eexists. split; [ reflexivity | ].
  split; [ reflexivity | discriminate ].
Qed.

(* ================================================================= *)
(** ** The submission pipeline *)

Section Pipeline.
Context {constants : TezosConstants} {codec : TezosMessageCodec}
        {utils : TezosMessageUtils} {lang : TezosLanguageUtil}.
Context {World : Type} (node : Node World).

Lemma run_sync_bind {A B : Type} (r : Result A) (f : A -> Promise B) (w : World) :
  run node (Promise_bind (sync r) f) w =
  match r with
  | Ok a => run node (f a) w
  | Err e => {| result := Err e; world := w; trace := [] |}
  end.
Proof. destruct r; reflexivity. Qed.

Lemma run_signOperationGroup_bind {B : Type} (forged : string) (keyStore : KeyStore)
    (derivationPath : string) (f : SignedOperationGroup -> Promise B) (w : World) :
  run node (Promise_bind (signOperationGroup forged keyStore derivationPath) f) w =
  match ask_signature node keyStore derivationPath forged w with
  | (Ok sig, w') =>
      logged (sign_request keyStore derivationPath forged)
        (run node
           (f {| bytes := from_hex forged ++ sig;
                 signature := readSignatureWithHint sig "edsig" |}) w')
  | (Err e, w') =>
      {| result := Err e;
         world := w';
         trace := [sign_request keyStore derivationPath forged] |}
  end.
Proof.
  unfold signOperationGroup, ask_signature, sign_request.
  destruct (storeType keyStore); reflexivity.
Qed.

Lemma run_sendOperation (server : string) (operations : list Operation)
    (keyStore : KeyStore) (derivationPath : string) (w : World) :
  run node (sendOperation server operations keyStore derivationPath) w =
  pipeline node server operations keyStore derivationPath w.
Proof.
  unfold sendOperation, pipeline. rewrite run_await_bind.
  destruct (node (getBlockHead server) w) as [[head | e] w1]; [ | reflexivity ].
  rewrite run_sync_bind.
  destruct (forgeOperations (hash head) operations) as [forged | e]; [ | reflexivity ].
  rewrite run_signOperationGroup_bind.
  destruct (ask_signature node keyStore derivationPath forged w1) as [[sig | e] w2];
    [ | reflexivity ].
  unfold applyOperation, preapply_request; simpl signature.
  match goal with
  | |- context [node ?r w2] => destruct (node r w2) as [[text | e] w3] eqn:Hpre
  end.
  2: { simpl. rewrite Hpre. reflexivity. }
  simpl. rewrite Hpre.
  destruct (parseApplied text) as [applied | ]; [ | reflexivity ].
  simpl.
  destruct (checkAppliedOperationResults applied) as [[] | e]; [ | reflexivity ].
  simpl. unfold inject_request.
  match goal with
  | |- context [node ?r w3] => destruct (node r w3) as [[injected | e] w4]
  end; reflexivity.
Qed.

Lemma stage_of_sign_request (keyStore : KeyStore) (derivationPath forged : string) :
  stage_of (sign_request keyStore derivationPath forged) = Sign.
Proof. unfold sign_request. destruct (storeType keyStore); reflexivity. Qed.

Lemma pipeline_validated (server : string) (operations : list Operation)
    (keyStore : KeyStore) (derivationPath : string) (w : World)
    (head : TezosBlock) (forged : string) (sig : Buffer)
    (applied : list AlphaOperationsWithMetadata) (w3 : World) :
  validated node server operations keyStore derivationPath w head forged sig applied w3 ->
  pipeline node server operations keyStore derivationPath w =
  let requests :=
    [getBlockHead server; sign_request keyStore derivationPath forged;
     preapply_request server head operations sig; inject_request server forged sig] in
  match node (inject_request server forged sig) w3 with
  | (Err e, w4) => {| result := Err e; world := w4; trace := requests |}
  | (Ok injected, w4) =>
      {| result :=
           Ok {| results := nth_error applied 0; operationGroupID := injected |};
         world := w4;
         trace := requests |}
  end.
Proof.
  intros (w1 & w2 & text & Hhead & Hforge & Hsign & Hpre & Hparse & Hcheck).
  unfold pipeline. cbv zeta.
  rewrite Hhead, Hforge, Hsign, Hpre, Hparse, Hcheck. reflexivity.
Qed.

Lemma pipeline_cases (server : string) (operations : list Operation)
    (keyStore : KeyStore) (derivationPath : string) (w : World) :
  (exists head forged sig applied w3,
     validated node server operations keyStore derivationPath w head forged sig applied w3)
  \/ (exists (e : Exn) (n : nat),
        result (pipeline node server operations keyStore derivationPath w) = Err e
        /\ (n <= 3)%nat
        /\ map stage_of (trace (pipeline node server operations keyStore derivationPath w))
           = firstn n [FetchHead; Sign; Preapply; Inject]).
Proof.
  unfold pipeline. cbv zeta.
  destruct (node (getBlockHead server) w) as [[head | e] w1] eqn:Hhead.
  2: { right. exists e, 1%nat. split; [ reflexivity | split; [ lia | reflexivity ] ]. }
  destruct (forgeOperations (hash head) operations) as [forged | e] eqn:Hforge.
  2: { right. exists e, 1%nat. split; [ reflexivity | split; [ lia | reflexivity ] ]. }
  destruct (ask_signature node keyStore derivationPath forged w1) as [[sig | e] w2] eqn:Hsign.
  2: { right. exists e, 2%nat. split; [ reflexivity | split; [ lia | ] ].
       simpl. now rewrite stage_of_sign_request. }
  destruct (node (preapply_request server head operations sig) w2) as [[text | e] w3] eqn:Hpre.
  2: { right. exists e, 3%nat. split; [ reflexivity | split; [ lia | ] ].
       simpl. now rewrite stage_of_sign_request. }
  destruct (parseApplied text) as [applied | ] eqn:Hparse.
  2: { right. eexists; exists 3%nat. split; [ reflexivity | split; [ lia | ] ].
       simpl. now rewrite stage_of_sign_request. }
  destruct (checkAppliedOperationResults applied) as [[] | e] eqn:Hcheck.
  2: { right. exists e, 3%nat. split; [ reflexivity | split; [ lia | ] ].
       simpl. now rewrite stage_of_sign_request. }
  left. exists head, forged, sig, applied, w3, w1, w2, text. repeat split; assumption.
Qed.

Lemma checked_nonempty (applied : list AlphaOperationsWithMetadata) :
  checkAppliedOperationResults applied = Ok tt ->
  exists first, nth_error applied 0 = Some first.
Proof.
  destruct applied as [| first rest]; [ discriminate | ]. intros _. now exists first.
Qed.

(** C5. [sendOperation] talks to the outside world in the order fetch-head,
    sign, preapply, inject, each at most once and stopping at the first
    failure (forging happens between fetch-head and sign, validation of the
    applied results between preapply and inject); injection is requested
    exactly when every earlier stage, up to [checkAppliedOperationResults],
    has succeeded; and the call succeeds exactly when injection is answered,
    returning the zeroth preapply result and the answer of the injection
    endpoint as it was received. *)
Theorem sendOperation_sequence (server : string) (operations : list Operation)
    (keyStore : KeyStore) (derivationPath : string) (w : World) :
  let out := run node (sendOperation server operations keyStore derivationPath) w in
  (exists n, map stage_of (trace out) = firstn n [FetchHead; Sign; Preapply; Inject])
  /\ (In Inject (map stage_of (trace out)) <->
      exists head forged sig applied w3,
        validated node server operations keyStore derivationPath w
          head forged sig applied w3
        /\ trace out =
           [getBlockHead server; sign_request keyStore derivationPath forged;
            preapply_request server head operations sig;
            inject_request server forged sig])
  /\ (forall r : OperationResult,
        result out = Ok r <->
        exists head forged sig applied w3 first injected w4,
          validated node server operations keyStore derivationPath w
            head forged sig applied w3
          /\ nth_error applied 0 = Some first
          /\ node (inject_request server forged sig) w3 = (Ok injected, w4)
          /\ r = {| results := Some first; operationGroupID := injected |}).
Proof.
  intro out. subst out. rewrite run_sendOperation.
  destruct (pipeline_cases server operations keyStore derivationPath w)
    as [(head & forged & sig & applied & w3 & Hval) | (e & n & Hres & Hn & Htrace)].
  - pose proof (pipeline_validated _ _ _ _ _ _ _ _ _ _ Hval) as Hrun. cbv zeta in Hrun.
    assert (Htr : trace (pipeline node server operations keyStore derivationPath w) =
                  [getBlockHead server; sign_request keyStore derivationPath forged;
                   preapply_request server head operations sig;
                   inject_request server forged sig]).
    { rewrite Hrun. destruct (node (inject_request server forged sig) w3) as [[x | e] w4];
        reflexivity. }
    split; [ | split ].
    + exists 4%nat. rewrite Htr. simpl. now rewrite stage_of_sign_request.
    + split.
      * intros _. exists head, forged, sig, applied, w3. split; assumption.
      * intros _. rewrite Htr. simpl. auto.
    + intro r. split.
      * intro Hr. rewrite Hrun in Hr.
        destruct (node (inject_request server forged sig) w3) as [[injected | e] w4] eqn:Hinj;
          cbn [result] in Hr; [ | discriminate ].
        destruct Hval as (w1 & w2 & text & Hval).
        destruct (checked_nonempty applied) as [first Hfirst]; [ apply Hval | ].
        exists head, forged, sig, applied, w3, first, injected, w4.
        repeat split; try assumption.
        -- exists w1, w2, text. exact Hval.
        -- rewrite Hfirst in Hr. now injection Hr as <-.
      * intros (head' & forged' & sig' & applied' & w3' & first & injected & w4
                & Hval' & Hfirst & Hinj & ->).
        rewrite (pipeline_validated _ _ _ _ _ _ _ _ _ _ Hval'). cbv zeta.
        rewrite Hinj. cbn [result]. now rewrite Hfirst.
  - split; [ | split ].
    + exists n. exact Htrace.
    + split.
      * intro Hin. rewrite Htrace in Hin. exfalso.
        destruct n as [| [| [| [| n]]]]; simpl in Hin; try lia;
          repeat (destruct Hin as [Hin | Hin]; [ discriminate | ]); exact Hin.
      * intros (head & forged & sig & applied & w3 & Hval & _). exfalso.
        rewrite (pipeline_validated _ _ _ _ _ _ _ _ _ _ Hval) in Htrace.
        cbv zeta in Htrace. apply (f_equal (@length Stage)) in Htrace.
        rewrite length_map, length_firstn in Htrace.
        destruct (node (inject_request server forged sig) w3) as [[x | e'] w4];
          simpl in Htrace; lia.
    + intro r. split.
      * intro Hr. rewrite Hres in Hr. discriminate.
      * intros (head & forged & sig & applied & w3 & first & injected & w4
                & Hval & Hfirst & Hinj & ->). exfalso.
        rewrite (pipeline_validated _ _ _ _ _ _ _ _ _ _ Hval) in Hres. cbv zeta in Hres.
        rewrite Hinj in Hres. discriminate.
Qed.

(* ----------------------------------------------------------------- *)
(** *** Validation of the applied results *)

Lemma check_contents_first_rejected (contents : list OperationContentsAndResult) :
  check_contents contents =
  match first_rejected contents with
  | Some op =>
      (text <- Json_toString (metadata op) ;;
       Err (JsError ("Could not apply operation because: " ++ text)%string))%result
  | None => Ok tt
  end.
Proof.
  unfold first_rejected.
  induction contents as [| op rest IH]; cbn [check_contents find]; [ reflexivity | ].
  destruct (negb (includes validAppliedKinds (contents_kind op))); [ reflexivity | exact IH ].
Qed.








End Pipeline.


(* ================================================================= *)
(** ** Signing *)

Section Signing.
Context {constants : TezosConstants} {utils : TezosMessageUtils}.
Context {World : Type} (node : Node World).

Lemma run_signOperationGroup (forged : string) (keyStore : KeyStore)
    (derivationPath : string) (w : World) :
  run node (signOperationGroup forged keyStore derivationPath) w =
  match ask_signature node keyStore derivationPath forged w with
  | (Ok sig, w') =>
      {| result := Ok {| bytes := from_hex forged ++ sig;
                         signature := readSignatureWithHint sig "edsig" |};
         world := w';
         trace := [sign_request keyStore derivationPath forged] |}
  | (Err e, w') =>
      {| result := Err e;
         world := w';
         trace := [sign_request keyStore derivationPath forged] |}
  end.
Proof.
  unfold signOperationGroup, ask_signature, sign_request.
  destruct (storeType keyStore); simpl;
    match goal with
    | |- context [node ?r w] => destruct (node r w) as [[sig | e] w']
    end; reflexivity.
Qed.

(** C4. For a watermark of two hexadecimal digits, that is one byte:
    the bytes [signOperationGroup] hashes (to 32 bytes, for software and
    fundraiser stores) or hands to the hardware backend are the watermark
    byte followed by the forged bytes; that request is the only one issued;
    and when the backend answers with a signature, the signed byte stream is
    the forged bytes, without the watermark, followed by the signature
    bytes, and the signature string is the ['edsig'] hint encoding of the
    signature. *)
Theorem signOperationGroup_watermark_once (forged : string) (keyStore : KeyStore)
    (derivationPath : string) (w : World) (a b : ascii) (hi lo : N) :
  OperationGroupWatermark = String a (String b EmptyString) ->
  hex_value a = Some hi ->
  hex_value b = Some lo ->
  let watermark := byte_of_nibbles hi lo in
  let out := run node (signOperationGroup forged keyStore derivationPath) w in
  from_hex (OperationGroupWatermark ++ forged)%string = watermark :: from_hex forged
  /\ trace out =
     [ match storeType keyStore with
       | Hardware =>
           signTezosOperation derivationPath (OperationGroupWatermark ++ forged)%string
       | _ =>
           signDetached (simpleHash (watermark :: from_hex forged) 32)
             (writeKeyWithHint (privateKey keyStore) "edsk")
       end ]
  /\ (forall (sig : Buffer) (w' : World),
        ask_signature node keyStore derivationPath forged w = (Ok sig, w') ->
        result out = Ok {| bytes := from_hex forged ++ sig;
                           signature := readSignatureWithHint sig "edsig" |})
  /\ (forall (e : Exn) (w' : World),
        ask_signature node keyStore derivationPath forged w = (Err e, w') ->
        result out = Err e).
Proof.
  intros Hmark Ha Hb watermark out.
  assert (Hbytes : from_hex (OperationGroupWatermark ++ forged)%string
                   = watermark :: from_hex forged).
  { rewrite Hmark. cbn [append from_hex]. now rewrite Ha, Hb. }
  subst out. rewrite run_signOperationGroup.
  split; [ exact Hbytes | ]. split; [ | split ].
  - assert (Hreq : sign_request keyStore derivationPath forged =
                   match storeType keyStore with
                   | Hardware =>
                       signTezosOperation derivationPath
                         (OperationGroupWatermark ++ forged)%string
                   | _ =>
                       signDetached (simpleHash (watermark :: from_hex forged) 32)
                         (writeKeyWithHint (privateKey keyStore) "edsk")
                   end).
    { unfold sign_request. rewrite Hbytes. reflexivity. }
    rewrite <- Hreq.
    destruct (ask_signature node keyStore derivationPath forged w) as [[sig | e] w'];
      reflexivity.
  - intros sig w' ->. reflexivity.
  - intros e w' ->. reflexivity.
Qed.

End Signing.

(** Signing the forged bytes [ce69] with a software store and watermark
    [03]. *)
Lemma signOperationGroup_watermark_once_witness :
  result (run Fixture.node
            (@signOperationGroup Fixture.constants Fixture.utils
               "ce69" (Fixture.keyStore Software) "")
            (Fixture.chain 5 true))
  = Ok {| bytes := [xce; x69; xaa; xbb]; signature := "edsigaabb" |}
  /\ trace (run Fixture.node
              (@signOperationGroup Fixture.constants Fixture.utils
                 "ce69" (Fixture.keyStore Software) "")
              (Fixture.chain 5 true))
     = [signDetached [x03; xce; x69] [x00; xff]].
Proof.
  destruct (@signOperationGroup_watermark_once Fixture.constants Fixture.utils
              Fixture.Chain Fixture.node "ce69" (Fixture.keyStore Software) ""
              (Fixture.chain 5 true) "0"%char "3"%char 0%N 3%N
              eq_refl eq_refl eq_refl) as (_ & Htrace & Hok & _).
  split.
  - exact (Hok [xaa; xbb] (Fixture.chain 5 true) eq_refl).
  - exact Htrace.
Defined.

(* ================================================================= *)
(** ** Remote forging *)

Lemma index_is_not_a_kind (i : nat) :
  includes ["reveal"; "transaction"; "delegation"; "origination"]
    (number_toString (Z.of_nat i)) = false.
Proof.
  unfold number_toString. destruct (Z.of_nat i) as [| p | p]; cbn [Z.to_int].
  - reflexivity.
  - cbn [NilZero.string_of_int]. destruct (Pos.to_uint p); reflexivity.
  - cbn [NilZero.string_of_int]. reflexivity.
Qed.

Lemma validate_loop_indices (ts : list string) :
  Forall (fun t => includes ["reveal"; "transaction"; "delegation"; "origination"] t
                   = false) ts ->
  validate_loop ts false = false.
Proof.
  induction 1 as [| t rest Ht _ IH]; cbn [validate_loop]; [ reflexivity | ].
  rewrite Ht. exact IH.
Qed.

Lemma validate_never_set {A : Type} (optypes : list A) :
  validate_loop (keys optypes) false = false.
Proof.
  apply validate_loop_indices. unfold keys. apply Forall_map, Forall_forall.
  intros i _. apply index_is_not_a_kind.
Qed.

Section RemoteForging.
Context {codec : TezosMessageCodec} {World : Type} (node : Node World).

(** The loop over the keys of [optypes] never sets [validate], whatever the
    kinds: the decoded operations are never compared and the call returns
    the cleaned response text. *)
Lemma forgeOperationsRemotely_never_validates (server : string)
    (blockHead : TezosBlock) (operations : list Operation) (w : World) :
  let request :=
    performPostRequest server "chains/main/blocks/head/helpers/forge/operations"
      (ForgePayload (hash blockHead) operations) in
  run node (forgeOperationsRemotely server blockHead operations) w =
  match node request w with
  | (Ok text, w') =>
      {| result := Ok (remove_chars is_quote (remove_chars is_newline text));
         world := w';
         trace := [request] |}
  | (Err e, w') => {| result := Err e; world := w'; trace := [request] |}
  end.
Proof.
  intro request. unfold forgeOperationsRemotely. rewrite run_await_bind.
  fold request. destruct (node request w) as [[text | e] w']; [ | reflexivity ].
  rewrite validate_never_set. reflexivity.
Qed.

End RemoteForging.

(** C2, at a failing input.  The client asks to forge a transaction of
    amount 10000000; the forged bytes the node returns decode to the same
    transaction with amount 999.  The field-by-field comparison rejects the
    pair, naming the kind, but [forgeOperationsRemotely] never runs it and
    returns the node's bytes; indeed, whatever the codec, the node and the
    operations, the call returns the response text once the node answers. *)
Theorem forgeOperationsRemotely_accepts_tampered_amount :
  let codec := Fixture.codec [Fixture.tampered_transaction] in
  amount Fixture.sample_transaction = Some "10000000"
  /\ @parseOperationGroup codec "00" = Ok [Fixture.tampered_transaction]
  /\ amount Fixture.tampered_transaction = Some "999"
  /\ validate_operations 0 [Fixture.sample_transaction] [Fixture.tampered_transaction]
     = Err (JsError "Forged transaction failed validation.")
  /\ result (run Fixture.node
               (@forgeOperationsRemotely codec "srv" Fixture.head
                  [Fixture.sample_transaction])
               (Fixture.chain 5 true))
     = Ok "00"
  /\ (forall (any : TezosMessageCodec) (World : Type) (node : Node World)
             (server : string) (blockHead : TezosBlock) (operations : list Operation)
             (w w' : World) (text : string),
        node (performPostRequest server
                "chains/main/blocks/head/helpers/forge/operations"
                (ForgePayload (hash blockHead) operations)) w = (Ok text, w') ->
        result (run node (@forgeOperationsRemotely any server blockHead operations) w)
        = Ok (remove_chars is_quote (remove_chars is_newline text))).
Proof.
  cbv zeta. repeat (split; [ reflexivity | ]).
  intros any World node server blockHead operations w w' text H.
  pose proof (@forgeOperationsRemotely_never_validates any World node server
                blockHead operations w) as Hrun.
  cbv zeta in Hrun. rewrite Hrun, H. reflexivity.
Qed.

(* ================================================================= *)
(** ** Preapplication *)

Section Preapplication.
Context {lang : TezosLanguageUtil} {World : Type} (node : Node World).

Lemma run_applyOperation (server branch protocol : string)
    (operations : list Operation) (signedOpGroup : SignedOperationGroup) (w : World) :
  let request :=
    performPostRequest server "chains/main/blocks/head/helpers/preapply/operations"
      (PreapplyPayload
         [ {| item_protocol := protocol;
              item_branch := branch;
              item_contents := operations;
              item_signature := signature signedOpGroup |} ]) in
  run node (applyOperation server branch protocol operations signedOpGroup) w =
  match node request w with
  | (Ok text, w') =>
      {| result :=
           match parseApplied text with
           | Some json => Ok json
           | None =>
               Err (JsError
                 ("Could not parse JSON response from chains/main/blocks/head/helpers/preapply/operation: '"
                    ++ text ++ "' for [object Object]")%string)
           end;
         world := w';
         trace := [request] |}
  | (Err e, w') => {| result := Err e; world := w'; trace := [request] |}
  end.
Proof.
  intro request. unfold applyOperation. rewrite run_await_bind. fold request.
  destruct (node request w) as [[text | e] w']; [ | reflexivity ].
  destruct (parseApplied text); reflexivity.
Qed.

End Preapplication.

(** C8, at a failing input.  The preapply endpoint answers with a body that
    is not JSON.  The error message carries the body, but in place of the
    request payload it carries the text an array of one object prints as;
    two calls with different branch, protocol, operations and signature fail
    with the same message.  For every node and parser: a body that parses is
    returned as parsed, and a body that does not parse fails with that
    message. *)
Theorem applyOperation_error_omits_payload :
  let call branch protocol operations signedOpGroup :=
    result (run Fixture.node
              (@applyOperation Fixture.lang "srv" branch protocol operations signedOpGroup)
              Fixture.chain_bad_gateway) in
  @parseApplied Fixture.lang "<html>502</html>" = None
  /\ call "BLhead" "Pt24m4xi" [Fixture.sample_transaction]
          {| bytes := [xce; x69]; signature := "edsigaabb" |}
     = Err (JsError
         "Could not parse JSON response from chains/main/blocks/head/helpers/preapply/operation: '<html>502</html>' for [object Object]")
  /\ call "BLother" "PsOther" [] {| bytes := []; signature := "edsig0102" |}
     = call "BLhead" "Pt24m4xi" [Fixture.sample_transaction]
         {| bytes := [xce; x69]; signature := "edsigaabb" |}
  /\ (forall (any : TezosLanguageUtil) (World : Type) (node : Node World)
             (server branch protocol : string) (operations : list Operation)
             (signedOpGroup : SignedOperationGroup) (w w' : World) (text : string),
        node (performPostRequest server
                "chains/main/blocks/head/helpers/preapply/operations"
                (PreapplyPayload
                   [ {| item_protocol := protocol;
                        item_branch := branch;
                        item_contents := operations;
                        item_signature := signature signedOpGroup |} ])) w
        = (Ok text, w') ->
        result (run node (@applyOperation any server branch protocol operations
                            signedOpGroup) w)
        = match @parseApplied any text with
          | Some json => Ok json
          | None =>
              Err (JsError
                ("Could not parse JSON response from chains/main/blocks/head/helpers/preapply/operation: '"
                   ++ text ++ "' for [object Object]")%string)
          end).
Proof.
  cbv zeta. repeat (split; [ reflexivity | ]).
  intros any World node server branch protocol operations signedOpGroup w w' text H.
  pose proof (@run_applyOperation any World node server branch protocol operations
                signedOpGroup w) as Hrun.
  cbv zeta in Hrun. rewrite Hrun, H. reflexivity.
Qed.

(* ================================================================= *)
(** ** The public [send*] entry points *)

Lemma assign_counter_members (a : nat) (c : string) (array : list Object)
    (o : Object) :
  In o (assign_counter a c array) ->
  exists ob, In ob array /\ (o = ob \/ fields o = set_counter (fields ob) c).
Proof.
  unfold assign_counter. rewrite in_map_iff. intros (ob & <- & Hin).
  exists ob. split; [ exact Hin | ].
  destruct (Nat.eqb (address ob) a); [ right; reflexivity | left; reflexivity ].
Qed.

Lemma forEach_counter_members (base : number) :
  forall (remaining : list Object) (index : nat) (operations : list Object)
         (o : Object),
    In o (forEach_counter base index remaining operations) ->
    exists ob, In ob operations
               /\ (fields o = fields ob
                   \/ exists c, fields o = set_counter (fields ob) c).
Proof.
  induction remaining as [| first rest IH]; intros index operations o Hin;
    cbn [forEach_counter] in Hin.
  - exists o. split; [ exact Hin | left; reflexivity ].
  - destruct (IH _ _ _ Hin) as (mid & Hmid & Ho).
    destruct (assign_counter_members _ _ _ _ Hmid) as (ob & Hob & Hstep).
    exists ob. split; [ exact Hob | ].
    destruct Hstep as [-> | Hstep]; [ exact Ho | ].
    right. destruct Ho as [-> | (c & ->)]; rewrite Hstep; eexists; reflexivity.
Qed.

Lemma renumber_members (base : number) (operations : list Object) (o : Object) :
  In o (renumber base operations) ->
  exists ob, In ob operations
             /\ (fields o = fields ob \/ exists c, fields o = set_counter (fields ob) c).
Proof. apply forEach_counter_members. Qed.

(** One literal operation, renumbered. *)
Lemma renumber_literal (base : number) (op : Operation) :
  renumber base [literal op]
  = [literal (set_counter op (number_toString (base + 2)))].
Proof.
  unfold renumber, literal. cbn [forEach_counter assign_counter map address fields Nat.eqb].
  now rewrite Z.add_0_r.
Qed.

Section Send.
Context {constants : TezosConstants} {codec : TezosMessageCodec}
        {utils : TezosMessageUtils} {lang : TezosLanguageUtil}.
Context {World : Type} (node : Node World).

Local Open Scope promise_scope.

(** What [appendRevealOperation] can return: the reveal it builds, an input
    operation with a rewritten counter, or an input operation. *)
Lemma appendRevealOperation_members (server : string) (keyStore : KeyStore)
    (accountHash : string) (base : number) (operations ops : list Object)
    (w : World) :
  result (run node (appendRevealOperation server keyStore accountHash base operations) w)
  = Ok ops ->
  forall o, In o (map fields ops) ->
    kind o = "reveal"
    \/ (exists op c, In op (map fields operations) /\ o = set_counter op c)
    \/ In o (map fields operations).
Proof.
  rewrite run_appendRevealOperation.
  destruct (node (isManagerKeyRevealedForAccount server accountHash) w)
    as [[[|] | e] w']; cbn [result]; intros [= <-] o Hin.
  - right; right. exact Hin.
  - cbn [map fields] in Hin. destruct Hin as [<- | Hin]; [ left; reflexivity | ].
    apply in_map_iff in Hin. destruct Hin as (ob & <- & Hin).
    destruct (renumber_members _ _ _ Hin) as (src & Hsrc & [Heq | (c & Heq)]).
    + right; right. rewrite Heq. now apply in_map.
    + right; left. exists (fields src), c. split; [ now apply in_map | exact Heq ].
Qed.

Lemma bundle_and_send_revealed (server : string) (keyStore : KeyStore)
    (derivationPath accountHash : string) (base : number) (op : Operation)
    (w w' : World) :
  node (isManagerKeyRevealedForAccount server accountHash) w = (Ok true, w') ->
  run node (bundle_and_send server keyStore derivationPath accountHash base op) w =
  logged (isManagerKeyRevealedForAccount server accountHash)
    (run node (sendOperation server [op] keyStore derivationPath) w').
Proof.
  intro H. unfold bundle_and_send, appendRevealOperation.
  change (Promise_bind (Promise_bind (await ?r) ?f) ?g)
    with (Promise_bind (await r) (fun x => Promise_bind (f x) g)).
  rewrite run_await_bind, H. reflexivity.
Qed.

(** A [send*] body after its counter query was answered as [H] says. *)
Ltac counter_answered H :=
  cbv zeta; rewrite run_await_bind, H; cbv zeta; rewrite ?Z.add_simpl_r.

(** C7. On every call of a [send*] function that builds a stackable
    operation, the counter of the operation it builds is the counter the
    chain accessor reports during that call, plus one, in decimal; the
    operation is handed to the reveal bundler with the reported counter as
    base (the reveal operation goes straight to the pipeline).  Nothing is
    kept between calls: the outcome is a function of the node's answers in
    the world the call starts in.  When the key is already revealed, a
    transaction is submitted as the single operation of its group. *)
Theorem send_counter_is_fresh (server : string) (keyStore : KeyStore)
    (derivationPath : string) (w w1 : World) (current : number) :
  node (getCounterForAccount server (publicKeyHash keyStore)) w = (Ok current, w1) ->
  let query := getCounterForAccount server (publicKeyHash keyStore) in
  let next := Some (number_toString (current + 1)) in
  let submit op :=
    logged query
      (run node (bundle_and_send server keyStore derivationPath
                   (publicKeyHash keyStore) current op) w1) in
  (forall to amount_ fee_,
     exists op,
       run node (sendTransactionOperation server keyStore to amount_ fee_ derivationPath) w
       = submit op
       /\ kind op = "transaction" /\ counter op = next
       /\ forall w2,
            node (isManagerKeyRevealedForAccount server (publicKeyHash keyStore)) w1
            = (Ok true, w2) ->
            submit op =
            logged query
              (logged (isManagerKeyRevealedForAccount server (publicKeyHash keyStore))
                 (run node (sendOperation server [op] keyStore derivationPath) w2)))
  /\ (forall amount_ delegate_ spendable_ delegatable_ fee_ storage_limit_ gas_limit_
             code_ storage_,
       exists op,
         run node (sendOriginationOperation server keyStore amount_ delegate_ spendable_
                     delegatable_ fee_ derivationPath storage_limit_ gas_limit_
                     code_ storage_) w
         = submit op
         /\ kind op = "origination" /\ counter op = next)
  /\ (forall to amount_ fee_ storageLimit gasLimit parameters_ parameterFormat,
       exists built : Result Operation,
         run node (sendContractInvocationOperation server keyStore to amount_ fee_
                     derivationPath storageLimit gasLimit parameters_ parameterFormat) w
         = match built with
           | Ok op => submit op
           | Err e => {| result := Err e; world := w1; trace := [query] |}
           end
         /\ (forall op, built = Ok op -> kind op = "transaction" /\ counter op = next)
         /\ (parameters_ = None -> exists op, built = Ok op))
  /\ (forall fee_,
       exists op,
         run node (sendKeyRevealOperation server keyStore fee_ derivationPath) w
         = logged query (run node (sendOperation server [op] keyStore derivationPath) w1)
         /\ kind op = "reveal" /\ counter op = next)
  /\ (forall delegator delegate_ fee_ wd reported,
       node (getCounterForAccount server delegator) w = (Ok reported, wd) ->
       exists op,
         run node (sendDelegationOperation server keyStore delegator delegate_ fee_
                     derivationPath) w
         = logged (getCounterForAccount server delegator)
             (run node (bundle_and_send server keyStore derivationPath delegator
                          reported op) wd)
         /\ kind op = "delegation"
         /\ counter op = Some (number_toString (reported + 1))).
Proof.
  intros Hc query next submit. subst query next submit. cbv beta.
  split; [ | split; [ | split; [ | split ] ] ].
  - intros to amount_ fee_. eexists. split; [ | split; [ | split ] ].
    + unfold sendTransactionOperation. counter_answered Hc. reflexivity.
    + reflexivity.
    + reflexivity.
    + intros w2 Hrev. now rewrite (bundle_and_send_revealed _ _ _ _ _ _ _ _ Hrev).
  - intros. eexists. split; [ | split ].
    + unfold sendOriginationOperation. counter_answered Hc. reflexivity.
    + reflexivity.
    + reflexivity.
  - intros to amount_ fee_ storageLimit gasLimit parameters_ parameterFormat.
    unfold sendContractInvocationOperation. rewrite run_await_bind, Hc. cbv zeta.
    match goal with
    | |- context [Promise_bind (sync ?r) _] => exists r
    end.
    split; [ | split ].
    + match goal with
      | |- context [Promise_bind (sync ?r) _] => destruct r as [op | e]
      end; cbn [sync Promise_bind]; [ | reflexivity ].
      rewrite Z.add_simpl_r. reflexivity.
    + intros op Hop. destruct parameters_ as [p | ].
      * destruct (truthy (Some p) && trim_nonempty p).
        -- destruct parameterFormat; cbn [Result_bind] in Hop.
           ++ destruct (translateMichelsonToMicheline p) as [m | e];
                cbn [Result_bind] in Hop; [ | discriminate ].
              destruct (JSON_parse m) as [j | e]; cbn [Result_bind] in Hop;
                [ | discriminate ].
              injection Hop as <-. split; reflexivity.
           ++ destruct (JSON_parse p) as [j | e]; cbn [Result_bind] in Hop;
                [ | discriminate ].
              injection Hop as <-. split; reflexivity.
        -- injection Hop as <-. split; reflexivity.
      * injection Hop as <-. split; reflexivity.
    + intros ->. eexists. reflexivity.
  - intros fee_. eexists. split; [ | split ].
    + unfold sendKeyRevealOperation. counter_answered Hc. reflexivity.
    + reflexivity.
    + reflexivity.
  - intros delegator delegate_ fee_ wd reported Hd. eexists. split; [ | split ].
    + unfold sendDelegationOperation. counter_answered Hd. reflexivity.
    + reflexivity.
    + reflexivity.
Qed.

(** C9. The origination [sendOriginationOperation] builds carries the
    caller's delegate and has [delegatable] equal to the caller's
    [delegatable] and the presence of a delegate: it is [false] whenever the
    delegate is undefined or empty, and the caller's value whenever the
    delegate is a non-empty string; [spendable] is the caller's value; and
    these fields are the same on the origination in whatever group the
    reveal bundler returns. *)
Theorem origination_delegatable_requires_delegate (server : string)
    (keyStore : KeyStore) (amount_ : number) (delegate_ : option string)
    (spendable_ delegatable_ : bool) (fee_ : number) (derivationPath : string)
    (storage_limit_ gas_limit_ : number) (code_ storage_ : option Json)
    (w w1 : World) (current : number) :
  node (getCounterForAccount server (publicKeyHash keyStore)) w = (Ok current, w1) ->
  exists op,
    run node (sendOriginationOperation server keyStore amount_ delegate_ spendable_
                delegatable_ fee_ derivationPath storage_limit_ gas_limit_
                code_ storage_) w
    = logged (getCounterForAccount server (publicKeyHash keyStore))
        (run node (bundle_and_send server keyStore derivationPath
                     (publicKeyHash keyStore) current op) w1)
    /\ kind op = "origination"
    /\ delegatable op = Some (delegatable_ && truthy delegate_)
    /\ spendable op = Some spendable_
    /\ (delegate_ = None \/ delegate_ = Some EmptyString -> delegatable op = Some false)
    /\ (forall first rest, delegate_ = Some (String first rest) ->
          delegatable op = Some delegatable_)
    /\ delegate op = delegate_
    /\ (forall (w' : World) (ops : list Object),
          result (run node (appendRevealOperation server keyStore
                              (publicKeyHash keyStore) current [literal op]) w') = Ok ops ->
          forall o, In o (map fields ops) -> kind o = "origination" ->
            delegatable o = Some (delegatable_ && truthy delegate_)
            /\ spendable o = Some spendable_
            /\ delegate o = delegate_
            /\ (delegate_ = None \/ delegate_ = Some EmptyString ->
                delegatable o = Some false)
            /\ (forall first rest, delegate_ = Some (String first rest) ->
                delegatable o = Some delegatable_)).
Proof.
  intro Hc. eexists.
  split; [ | split; [ | split; [ | split; [ | split; [ | split; [ | split ] ] ] ] ] ].
  - unfold sendOriginationOperation. counter_answered Hc. reflexivity.
  - reflexivity.
  - reflexivity.
  - reflexivity.
  - intros [-> | ->]; cbn [delegatable truthy]; now rewrite andb_false_r.
  - intros first rest ->. cbn [delegatable truthy String.eqb negb].
    now rewrite andb_true_r.
  - reflexivity.
  - intros w' ops Hops o Hin Hkind.
    assert (Hfields : delegatable o = Some (delegatable_ && truthy delegate_)
                      /\ spendable o = Some spendable_ /\ delegate o = delegate_).
    { destruct (appendRevealOperation_members _ _ _ _ _ _ _ Hops o Hin)
        as [Hrev | [(op & c & [<- | []] & ->) | [<- | []]]].
      - rewrite Hrev in Hkind. discriminate.
      - repeat split; reflexivity.
      - repeat split; reflexivity. }
    destruct Hfields as (Hdel & Hsp & Hdg).
    split; [ exact Hdel | ]. split; [ exact Hsp | ]. split; [ exact Hdg | ].
    rewrite Hdel. split.
    + intros [-> | ->]; cbn [truthy]; now rewrite andb_false_r.
    + intros first rest ->. cbn [truthy String.eqb negb]. now rewrite andb_true_r.
Qed.

(** C10. The delegation [sendDelegationOperation] builds has its gas limit
    and its storage limit set from the same constant, the default delegation
    storage limit, and so has every delegation in whatever group the reveal
    bundler returns. *)
Theorem delegation_gas_limit_is_storage_limit (server : string) (keyStore : KeyStore)
    (delegator : string) (delegate_ : option string) (fee_ : option number)
    (derivationPath : string) (w w1 : World) (current : number) :
  node (getCounterForAccount server delegator) w = (Ok current, w1) ->
  exists op,
    run node (sendDelegationOperation server keyStore delegator delegate_ fee_
                derivationPath) w
    = logged (getCounterForAccount server delegator)
        (run node (bundle_and_send server keyStore derivationPath delegator
                     current op) w1)
    /\ kind op = "delegation"
    /\ gas_limit op = Some (number_toString DefaultDelegationStorageLimit)
    /\ storage_limit op = Some (number_toString DefaultDelegationStorageLimit)
    /\ (forall (w' : World) (ops : list Object),
          result (run node (appendRevealOperation server keyStore delegator current
                              [literal op]) w') = Ok ops ->
          forall o, In o (map fields ops) -> kind o = "delegation" ->
            gas_limit o = storage_limit o).
Proof.
  intro Hc. eexists. split; [ | split; [ | split; [ | split ] ] ].
  - unfold sendDelegationOperation. counter_answered Hc. reflexivity.
  - reflexivity.
  - reflexivity.
  - reflexivity.
  - intros w' ops Hops o Hin Hkind.
    destruct (appendRevealOperation_members _ _ _ _ _ _ _ Hops o Hin)
      as [Hrev | [(op & c & [<- | []] & ->) | [<- | []]]].
    + rewrite Hrev in Hkind. discriminate.
    + reflexivity.
    + reflexivity.
Qed.

End Send.

(** Counter 5 and a revealed key: the transaction carries counter 6 and is
    submitted alone. *)
Lemma send_counter_is_fresh_witness :
  exists op,
    run Fixture.node
      (@sendTransactionOperation Fixture.constants (Fixture.codec []) Fixture.utils
         Fixture.lang "srv" (Fixture.keyStore Software) "tz1Dest" 10000000 100000 "")
      (Fixture.chain 5 true)
    = logged (getCounterForAccount "srv" "tz1Account")
        (logged (isManagerKeyRevealedForAccount "srv" "tz1Account")
           (run Fixture.node
              (@sendOperation Fixture.constants (Fixture.codec []) Fixture.utils
                 Fixture.lang "srv" [op] (Fixture.keyStore Software) "")
              (Fixture.chain 5 true)))
    /\ kind op = "transaction"
    /\ counter op = Some "6".
Proof.
  destruct (@send_counter_is_fresh Fixture.constants (Fixture.codec []) Fixture.utils
              Fixture.lang Fixture.Chain Fixture.node "srv" (Fixture.keyStore Software) ""
              (Fixture.chain 5 true) (Fixture.chain 5 true) 5 eq_refl) as [Htx _].
  destruct (Htx "tz1Dest" 10000000 100000) as (op & Hrun & Hkind & Hcounter & Hrevealed).
  exists op. split; [ | split; [ exact Hkind | exact Hcounter ] ].
  rewrite Hrun. exact (Hrevealed (Fixture.chain 5 true) eq_refl).
Defined.

(** Two originations asked to be delegatable: with a baker as delegate
    the flag stays set, with an empty delegate it is cleared. *)
Lemma origination_delegatable_requires_delegate_witness :
  (exists op,
     run Fixture.node
       (@sendOriginationOperation Fixture.constants (Fixture.codec []) Fixture.utils
          Fixture.lang "srv" (Fixture.keyStore Software) 10000000 (Some "tz1Baker")
          true true 100000 "" 277 10160 None None)
       (Fixture.chain 5 true)
     = logged (getCounterForAccount "srv" "tz1Account")
         (run Fixture.node
            (@bundle_and_send Fixture.constants (Fixture.codec []) Fixture.utils
               Fixture.lang "srv" (Fixture.keyStore Software) "" "tz1Account" 5 op)
            (Fixture.chain 5 true))
     /\ kind op = "origination"
     /\ delegate op = Some "tz1Baker"
     /\ delegatable op = Some true
     /\ spendable op = Some true)
  /\ (exists op,
        run Fixture.node
          (@sendOriginationOperation Fixture.constants (Fixture.codec []) Fixture.utils
             Fixture.lang "srv" (Fixture.keyStore Software) 10000000 (Some EmptyString)
             true true 100000 "" 277 10160 None None)
          (Fixture.chain 5 true)
        = logged (getCounterForAccount "srv" "tz1Account")
            (run Fixture.node
               (@bundle_and_send Fixture.constants (Fixture.codec []) Fixture.utils
                  Fixture.lang "srv" (Fixture.keyStore Software) "" "tz1Account" 5 op)
               (Fixture.chain 5 true))
        /\ kind op = "origination"
        /\ delegate op = Some EmptyString
        /\ delegatable op = Some false
        /\ spendable op = Some true).
Proof.
  split.
  - destruct (@origination_delegatable_requires_delegate Fixture.constants
                (Fixture.codec []) Fixture.utils Fixture.lang Fixture.Chain Fixture.node
                "srv" (Fixture.keyStore Software) 10000000 (Some "tz1Baker") true true
                100000 "" 277 10160 None None
                (Fixture.chain 5 true) (Fixture.chain 5 true) 5 eq_refl)
      as (op & Hrun & Hkind & _ & Hsp & _ & Hkeep & Hdg & _).
    exists op. split; [ exact Hrun | ]. split; [ exact Hkind | ].
    split; [ exact Hdg | ]. split; [ | exact Hsp ].
    exact (Hkeep _ _ eq_refl).
  - destruct (@origination_delegatable_requires_delegate Fixture.constants
                (Fixture.codec []) Fixture.utils Fixture.lang Fixture.Chain Fixture.node
                "srv" (Fixture.keyStore Software) 10000000 (Some EmptyString) true true
                100000 "" 277 10160 None None
                (Fixture.chain 5 true) (Fixture.chain 5 true) 5 eq_refl)
      as (op & Hrun & Hkind & _ & Hsp & Hdel & _ & Hdg & _).
    exists op. split; [ exact Hrun | ]. split; [ exact Hkind | ].
    split; [ exact Hdg | ]. split; [ | exact Hsp ].
    apply Hdel. now right.
Defined.

(** A delegation built with the default limits of the concrete constants. *)
Lemma delegation_gas_limit_is_storage_limit_witness :
  exists op,
    run Fixture.node
      (@sendDelegationOperation Fixture.constants (Fixture.codec []) Fixture.utils
         Fixture.lang "srv" (Fixture.keyStore Hardware) "tz1Account" (Some "tz1Baker")
         None "44'")
      (Fixture.chain 5 false)
    = logged (getCounterForAccount "srv" "tz1Account")
        (run Fixture.node
           (@bundle_and_send Fixture.constants (Fixture.codec []) Fixture.utils
              Fixture.lang "srv" (Fixture.keyStore Hardware) "44'" "tz1Account" 5 op)
           (Fixture.chain 5 false))
    /\ kind op = "delegation"
    /\ gas_limit op = Some "0"
    /\ storage_limit op = Some "0".
Proof.
  destruct (@delegation_gas_limit_is_storage_limit Fixture.constants
              (Fixture.codec []) Fixture.utils Fixture.lang Fixture.Chain Fixture.node
              "srv" (Fixture.keyStore Hardware) "tz1Account" (Some "tz1Baker") None "44'"
              (Fixture.chain 5 false) (Fixture.chain 5 false) 5 eq_refl)
    as (op & Hrun & Hkind & Hgas & Hst & _).
  exists op. split; [ exact Hrun | ]. split; [ exact Hkind | ].
  split; [ exact Hgas | exact Hst ].
Defined.

(* ================================================================= *)
(** ** End-to-end scenarios on the concrete node *)

Section Scenarios.
Let constants := Fixture.constants.
Let codec := Fixture.codec [].
Let utils := Fixture.utils.
Let lang := Fixture.lang.
Existing Instances constants codec utils lang.

(** A transaction of 10000000 with fee 100000, chain counter 5, key already
    revealed: one operation, counter 6, and the injection endpoint's text as
    the operation group id. *)
Example scenario_transaction_revealed :
  let out :=
    run Fixture.node
      (sendTransactionOperation "srv" (Fixture.keyStore Software) "tz1Dest"
         10000000 100000 "")
      (Fixture.chain 5 true) in
  map (map kind) (submitted_contents (trace out)) = [["transaction"]]
  /\ map (map counter) (submitted_contents (trace out)) = [[Some "6"]]
  /\ map (map amount) (submitted_contents (trace out)) = [[Some "10000000"]]
  /\ map (map fee) (submitted_contents (trace out)) = [[Some "100000"]]
  /\ result out
     = Ok {| results := Some Fixture.applied_ok; operationGroupID := "ooGroupHash" |}.
Proof. cbv zeta. repeat split; reflexivity. Qed.

(** A delegation, chain counter 5, key not revealed: a reveal with counter 6
    and the delegation with counter 7, in one group. *)
Example scenario_delegation_unrevealed :
  let out :=
    run Fixture.node
      (sendDelegationOperation "srv" (Fixture.keyStore Hardware) "tz1Account"
         (Some "tz1Baker") None "44'")
      (Fixture.chain 5 false) in
  map (map kind) (submitted_contents (trace out)) = [["reveal"; "delegation"]]
  /\ map (map counter) (submitted_contents (trace out)) = [[Some "6"; Some "7"]]
  /\ map stage_of (trace out) = [Other; Other; FetchHead; Sign; Preapply; Inject].
Proof. cbv zeta. repeat split; reflexivity. Qed.

(** Two calls in a row against a node whose counter advances on injection:
    the second call reads the counter again. *)
Example scenario_counter_requeried :
  let send :=
    sendTransactionOperation "srv" (Fixture.keyStore Software) "tz1Dest"
      10000000 100000 "" in
  let out :=
    run Fixture.node (Promise_bind send (fun _ => send)) (Fixture.chain 5 true) in
  map (map counter) (submitted_contents (trace out)) = [[Some "6"]; [Some "7"]].
Proof. reflexivity. Qed.

End Scenarios.

(* ================================================================= *)
(** ** Hexadecimal text and the bytes that are signed and injected *)

Lemma nibbles_of_byte (x : byte) :
  hex_value (hex_char (Byte.to_N x / 16)) = Some (Byte.to_N x / 16)%N
  /\ hex_value (hex_char (Byte.to_N x mod 16)) = Some (Byte.to_N x mod 16)%N
  /\ byte_of_nibbles (Byte.to_N x / 16) (Byte.to_N x mod 16) = x.
Proof. destruct x; repeat split; reflexivity. Qed.

Lemma from_hex_to_hex (b : Buffer) : from_hex (to_hex b) = b.
Proof.
  induction b as [| x rest IH]; [ reflexivity | ].
  cbn [to_hex from_hex].
  destruct (nibbles_of_byte x) as (Hhi & Hlo & Hx).
  now rewrite Hhi, Hlo, Hx, IH.
Qed.

Lemma to_hex_app (a b : Buffer) : to_hex (a ++ b) = (to_hex a ++ to_hex b)%string.
Proof.
  induction a as [| x rest IH]; [ reflexivity | ].
  cbn [app to_hex append]. now rewrite IH.
Qed.

Lemma lower_hex_digits (c : ascii) :
  is_lower_hex_digit c = true ->
  In c ["0"; "1"; "2"; "3"; "4"; "5"; "6"; "7"; "8"; "9";
        "a"; "b"; "c"; "d"; "e"; "f"]%char.
Proof.
  destruct c as [[] [] [] [] [] [] [] []]; intro H; try discriminate H;
    cbn [In]; tauto.
Qed.

Lemma to_hex_from_hex_pair (a b : ascii) :
  is_lower_hex_digit a = true -> is_lower_hex_digit b = true ->
  exists x, from_hex (String a (String b EmptyString)) = [x]
            /\ to_hex [x] = String a (String b EmptyString).
Proof.
  intros Ha Hb. apply lower_hex_digits in Ha. apply lower_hex_digits in Hb.
  cbn [In] in Ha, Hb.
  repeat (destruct Ha as [<- | Ha]; [ | ]); try contradiction;
    repeat (destruct Hb as [<- | Hb]; [ | ]); try contradiction;
    eexists; split; reflexivity.
Qed.

Lemma to_hex_from_hex (s : string) : lower_hex s = true -> to_hex (from_hex s) = s.
Proof.
  revert s.
  fix IH 1. intros [| a [| b rest]] H; [ reflexivity | discriminate H | ].
  cbn [lower_hex] in H.
  apply andb_prop in H as [H Hrest]. apply andb_prop in H as [Ha Hb].
  destruct (to_hex_from_hex_pair a b Ha Hb) as (x & Hx & Hback).
  cbn [from_hex] in Hx |- *.
  destruct (hex_value a) as [hi | ]; [ | discriminate Hx ].
  destruct (hex_value b) as [lo | ]; [ | discriminate Hx ].
  injection Hx as Hx. rewrite Hx. cbn [to_hex] in Hback |- *.
  injection Hback as -> ->. now rewrite (IH rest Hrest).
Qed.

Lemma from_hex_even_tail (c : ascii) (s : string) :
  (even_length s = true ->
   from_hex (s ++ String c EmptyString) = from_hex s)
  /\ (forall a, even_length (String a s) = true ->
                from_hex (String a s ++ String c EmptyString) = from_hex (String a s)).
Proof.
  induction s as [| b rest [IHeven IHodd]].
  - split; [ reflexivity | intros a H; discriminate H ].
  - split; [ intro H; exact (IHodd b H) | ].
    intros a H. cbn [even_length] in H. cbn [append from_hex].
    destruct (hex_value a); [ | reflexivity ].
    destruct (hex_value b); [ | reflexivity ].
    now rewrite (IHeven H).
Qed.

Lemma even_length_app (a b : string) :
  even_length a = true -> even_length b = true -> even_length (a ++ b) = true.
Proof.
  revert a. fix IH 1. intros [| x [| y rest]] Ha Hb;
    [ exact Hb | discriminate Ha | ].
  cbn [append even_length] in *. exact (IH rest Ha Hb).
Qed.

Section SignedBytes.
Context {constants : TezosConstants} {utils : TezosMessageUtils}.
Context {World : Type} (node : Node World).

(** X1. [injectOperation] issues one request: a POST to the injection
    endpoint whose body is hexadecimal text that decodes to exactly the
    bytes of the signed group; whatever the node answers, text or failure,
    is what the call returns. *)
Theorem injectOperation_posts_signed_bytes (server : string)
    (signedOpGroup : SignedOperationGroup) (w : World) :
  exists text : string,
    let request :=
      performPostRequest server "injection/operation?chain=main" (TextPayload text) in
    from_hex text = bytes signedOpGroup
    /\ run node (injectOperation server signedOpGroup) w =
       {| result := fst (node request w);
          world := snd (node request w);
          trace := [request] |}.
Proof.
  exists (to_hex (bytes signedOpGroup)). cbv zeta. split.
  - apply from_hex_to_hex.
  - unfold injectOperation. rewrite run_await_bind.
    destruct (node _ w) as [[text | e] w']; reflexivity.
Qed.

(** X2. When the forged text is well-formed (pairs of lower-case hexadecimal
    digits) and the signing backend answers with a signature, the text that
    [injectOperation] posts for the group [signOperationGroup] returns is the
    forged text followed by the signature in hexadecimal: nothing of the
    forged operation is lost or altered between forging and injection. *)
Theorem signed_group_injects_forged_then_signature (forged : string)
    (keyStore : KeyStore) (derivationPath : string) (sig : Buffer) (w w' : World) :
  lower_hex forged = true ->
  ask_signature node keyStore derivationPath forged w = (Ok sig, w') ->
  exists signedOpGroup,
    result (run node (signOperationGroup forged keyStore derivationPath) w)
    = Ok signedOpGroup
    /\ forall (server : string) (w2 : World),
         trace (run node (injectOperation server signedOpGroup) w2) =
         [performPostRequest server "injection/operation?chain=main"
            (TextPayload (forged ++ to_hex sig)%string)].
Proof.
  intros Hhex Hsig. rewrite run_signOperationGroup, Hsig. cbn [result].
  eexists. split; [ reflexivity | ].
  intros server w2. unfold injectOperation. rewrite run_await_bind. cbn [bytes].
  rewrite to_hex_app, (to_hex_from_hex forged Hhex).
  destruct (node _ w2) as [[text | e] w3]; reflexivity.
Qed.

(** X3. With a software or fundraiser store and a watermark of even length,
    a forged text of even length followed by one more character is signed
    exactly as the forged text without that character: the hexadecimal
    decoder drops a trailing odd digit, from the bytes that are hashed and
    from the signed bytes alike, and no error is raised. *)
Theorem signOperationGroup_ignores_odd_tail (forged : string) (c : ascii)
    (keyStore : KeyStore) (derivationPath : string) (w : World) :
  storeType keyStore <> Hardware ->
  even_length OperationGroupWatermark = true ->
  even_length forged = true ->
  run node (signOperationGroup (forged ++ String c EmptyString) keyStore
              derivationPath) w
  = run node (signOperationGroup forged keyStore derivationPath) w.
Proof.
  intros Hstore Hmark Hforged.
  assert (Hdigest :
    from_hex (OperationGroupWatermark ++ (forged ++ String c EmptyString))%string
    = from_hex (OperationGroupWatermark ++ forged)%string).
  { rewrite <- string_append_assoc.
    apply (proj1 (from_hex_even_tail c _)). now apply even_length_app. }
  rewrite !run_signOperationGroup. unfold ask_signature, sign_request.
  rewrite Hdigest, (proj1 (from_hex_even_tail c forged) Hforged).
  destruct (storeType keyStore); [ reflexivity | reflexivity | now elim Hstore ].
Qed.

(** X4. The hardware path of [signOperationGroup] never reads the key
    store's keys: two hardware stores give the same outcome.  The software
    and fundraiser path never reads the derivation path and reads the key
    store only for its private key. *)
Theorem signOperationGroup_key_material_use (forged : string)
    (keyStore1 keyStore2 : KeyStore) (path1 path2 : string) (w : World) :
  (storeType keyStore1 = Hardware -> storeType keyStore2 = Hardware ->
   run node (signOperationGroup forged keyStore1 path1) w
   = run node (signOperationGroup forged keyStore2 path1) w)
  /\ (storeType keyStore1 <> Hardware -> storeType keyStore2 <> Hardware ->
      privateKey keyStore1 = privateKey keyStore2 ->
      run node (signOperationGroup forged keyStore1 path1) w
      = run node (signOperationGroup forged keyStore2 path2) w).
Proof.
  split.
  - intros H1 H2. rewrite !run_signOperationGroup. unfold ask_signature, sign_request.
    now rewrite H1, H2.
  - intros H1 H2 Hkey. rewrite !run_signOperationGroup.
    unfold ask_signature, sign_request. rewrite Hkey.
    destruct (storeType keyStore1); destruct (storeType keyStore2);
      try reflexivity; try (now elim H1); now elim H2.
Qed.

End SignedBytes.

(** Signing [ce69] on the concrete node and injecting the result. *)
Lemma signed_group_injects_forged_then_signature_witness :
  exists signedOpGroup,
    result (run Fixture.node
              (@signOperationGroup Fixture.constants Fixture.utils "ce69"
                 (Fixture.keyStore Software) "")
              (Fixture.chain 5 true))
    = Ok signedOpGroup
    /\ trace (run Fixture.node (injectOperation "srv" signedOpGroup)
                (Fixture.chain 5 true))
       = [performPostRequest "srv" "injection/operation?chain=main"
            (TextPayload "ce69aabb")].
Proof.
  destruct (@signed_group_injects_forged_then_signature Fixture.constants
              Fixture.utils Fixture.Chain Fixture.node "ce69"
              (Fixture.keyStore Software) "" [xaa; xbb]
              (Fixture.chain 5 true) (Fixture.chain 5 true) eq_refl eq_refl)
    as (signedOpGroup & Hsigned & Hinject).
  exists signedOpGroup. split; [ exact Hsigned | ].
  exact (Hinject "srv" (Fixture.chain 5 true)).
Defined.

(** Signing [ce69f] and [ce69] with the software store. *)
Lemma signOperationGroup_ignores_odd_tail_witness :
  run Fixture.node
    (@signOperationGroup Fixture.constants Fixture.utils "ce69f"
       (Fixture.keyStore Software) "")
    (Fixture.chain 5 true)
  = run Fixture.node
      (@signOperationGroup Fixture.constants Fixture.utils "ce69"
         (Fixture.keyStore Software) "")
      (Fixture.chain 5 true).
Proof.
  refine (@signOperationGroup_ignores_odd_tail Fixture.constants Fixture.utils
            Fixture.Chain Fixture.node "ce69" "f"%char (Fixture.keyStore Software) ""
            (Fixture.chain 5 true) _ eq_refl eq_refl).
  discriminate.
Defined.

(* ================================================================= *)
(** ** Local forging, continued *)

Section ForgingMore.
Context {codec : TezosMessageCodec}.

(** X5. Forging composes over concatenation: a group of [first ++ second]
    forges to what [first] forges to, followed by the encodings of [second]
    in order; a failure on [first] is the failure of the whole, and the
    operations of [second] are then not encoded.  The empty group forges to
    the branch alone. *)
Theorem forgeOperations_append (branch : string) (first second : list Operation) :
  forgeOperations branch (first ++ second) =
  (forged <- forgeOperations branch first ;;
   es <- encode_all second ;;
   Ok (forged ++ String.concat "" es)%string)%result
  /\ forgeOperations branch [] = writeBranch branch.
Proof.
  split; [ | reflexivity ].
  unfold forgeOperations. rewrite fold_left_app.
  match goal with
  | |- fold_left ?f second ?acc = _ => destruct acc as [forged | e]
  end.
  - apply forge_fold_layout.
  - apply forge_fold_failed.
Qed.

End ForgingMore.

(* ================================================================= *)
(** ** Remote forging, continued *)

Lemma remove_chars_clean (p : ascii -> bool) (s : string) :
  forall c, In c (list_ascii_of_string (remove_chars p s)) -> p c = false.
Proof.
  induction s as [| x rest IH]; intros c Hin; [ destruct Hin | ].
  cbn [remove_chars] in Hin. destruct (p x) eqn:Hx; [ exact (IH c Hin) | ].
  destruct Hin as [<- | Hin]; [ exact Hx | exact (IH c Hin) ].
Qed.

Lemma remove_chars_subset (p : ascii -> bool) (s : string) :
  forall c, In c (list_ascii_of_string (remove_chars p s)) ->
            In c (list_ascii_of_string s).
Proof.
  induction s as [| x rest IH]; intros c Hin; [ destruct Hin | ].
  cbn [remove_chars] in Hin. destruct (p x).
  - right. exact (IH c Hin).
  - destruct Hin as [<- | Hin]; [ now left | right; exact (IH c Hin) ].
Qed.

Lemma remove_chars_app (p : ascii -> bool) (a b : string) :
  remove_chars p (a ++ b) = (remove_chars p a ++ remove_chars p b)%string.
Proof.
  induction a as [| x rest IH]; [ reflexivity | ].
  cbn [append remove_chars]. destruct (p x); [ exact IH | ].
  cbn [append]. now rewrite IH.
Qed.

Lemma remove_chars_untouched (p : ascii -> bool) (s : string) :
  (forall c, In c (list_ascii_of_string s) -> p c = false) ->
  remove_chars p s = s.
Proof.
  induction s as [| x rest IH]; intro H; [ reflexivity | ].
  cbn [remove_chars]. rewrite (H x (or_introl eq_refl)).
  rewrite IH; [ reflexivity | ]. intros c Hin. apply H. now right.
Qed.

Section RemoteForgingMore.
Context {codec : TezosMessageCodec} {World : Type} (node : Node World).

(** X6. Once the node answers the forge request with [text],
    [forgeOperationsRemotely] returns [text] without its line feeds and
    quote characters: the returned text contains neither, and a bare
    hexadecimal text that the node sent wrapped in double quotes and ended
    with a line feed is returned as the bare text. *)
Theorem forgeOperationsRemotely_returns_bare_text (server : string)
    (blockHead : TezosBlock) (operations : list Operation) (text : string)
    (w w' : World) :
  node (performPostRequest server "chains/main/blocks/head/helpers/forge/operations"
          (ForgePayload (hash blockHead) operations)) w = (Ok text, w') ->
  exists ops,
    result (run node (forgeOperationsRemotely server blockHead operations) w) = Ok ops
    /\ (forall c, In c (list_ascii_of_string ops) ->
                  is_newline c = false /\ is_quote c = false)
    /\ (forall bare,
          (forall c, In c (list_ascii_of_string bare) ->
                     is_newline c = false /\ is_quote c = false) ->
          text = (String "034"%char bare
                    ++ String "034"%char (String "010"%char EmptyString))%string ->
          ops = bare).
Proof.
  intro H.
  pose proof (forgeOperationsRemotely_never_validates node server blockHead
                operations w) as Hrun.
  cbv zeta in Hrun. rewrite Hrun, H. cbn [result].
  eexists. split; [ reflexivity | split ].
  - intros c Hin. split.
    + apply remove_chars_subset in Hin. exact (remove_chars_clean _ _ c Hin).
    + exact (remove_chars_clean _ _ c Hin).
  - intros bare Hbare ->.
    change (String "034"%char bare)
      with (String "034"%char EmptyString ++ bare)%string.
    rewrite !remove_chars_app.
    assert (Hnl : remove_chars is_newline bare = bare).
    { apply remove_chars_untouched. intros c Hc. apply (Hbare c Hc). }
    assert (Hq : remove_chars is_quote bare = bare).
    { apply remove_chars_untouched. intros c Hc. apply (Hbare c Hc). }
    rewrite Hnl. cbn [remove_chars is_newline Ascii.eqb Bool.eqb append].
    rewrite Hq. change (is_quote "034"%char) with true. cbn [append].
    apply string_append_empty.
Qed.

End RemoteForgingMore.

(** The node of [Fixture] answering the forge request with a quoted text. *)
Lemma forgeOperationsRemotely_returns_bare_text_witness :
  exists ops,
    result (run Fixture.node
              (@forgeOperationsRemotely (Fixture.codec []) "srv" Fixture.head
                 [Fixture.sample_transaction])
              {| Fixture.chain_counter := 5;
                 Fixture.chain_revealed := true;
                 Fixture.forge_reply :=
                   String "034"%char ("ce69" ++ String "034"%char (String "010"%char ""));
                 Fixture.preapply_reply := "applied" |})
    = Ok ops
    /\ ops = "ce69".
Proof.
  pose (quoted := String "034"%char ("ce69" ++ String "034"%char (String "010"%char ""))).
  pose (world := {| Fixture.chain_counter := 5;
                    Fixture.chain_revealed := true;
                    Fixture.forge_reply := quoted;
                    Fixture.preapply_reply := "applied" |}).
  destruct (@forgeOperationsRemotely_returns_bare_text (Fixture.codec [])
              Fixture.Chain Fixture.node "srv" Fixture.head
              [Fixture.sample_transaction] quoted world world eq_refl)
    as (ops & Hres & _ & Hbare).
  exists ops. split; [ exact Hres | ].
  apply Hbare; [ | reflexivity ].
  intros c Hin. cbn in Hin.
  repeat (destruct Hin as [<- | Hin]; [ split; reflexivity | ]). destruct Hin.
Defined.

(* ----------------------------------------------------------------- *)
(** *** The field-by-field comparison *)

Lemma differ_same (a : option string) : differ a a = false.
Proof. destruct a as [x | ]; [ | reflexivity ]. cbn. now rewrite String.eqb_refl. Qed.

Lemma differ_bool_same (a : option bool) : differ_bool a a = false.
Proof. destruct a as [[] | ]; reflexivity. Qed.

Lemma validate_operation_same (op : Operation) :
  validate_operation op (Some op) =
  if (kind op =? "origination")%string
  then match script op with
       | Some _ => Err (JsError "Forged origination failed validation.")
       | None => Ok tt
       end
  else Ok tt.
Proof.
  unfold validate_operation.
  rewrite String.eqb_refl, !differ_same, !differ_bool_same. cbn [negb orb].
  destruct (kind op =? "transaction")%string eqn:Ht.
  - apply String.eqb_eq in Ht. rewrite Ht. reflexivity.
  - destruct (kind op =? "delegation")%string eqn:Hd.
    + apply String.eqb_eq in Hd. rewrite Hd. reflexivity.
    + destruct (kind op =? "origination")%string; [ | reflexivity ].
      destruct (script op); reflexivity.
Qed.

Lemma validate_operations_same (rest : list Operation) :
  forall seen : list Operation,
    validate_operations (length seen) rest (seen ++ rest) =
    fold_right (fun op later => (_ <- validate_operation op (Some op) ;; later)%result)
      (Ok tt) rest.
Proof.
  induction rest as [| op rest IH]; intro seen; [ reflexivity | ].
  cbn [validate_operations fold_right].
  rewrite nth_error_app2, Nat.sub_diag by apply Nat.le_refl. cbn [nth_error].
  destruct (validate_operation op (Some op)) as [[] | e]; [ | reflexivity ].
  cbn [Result_bind].
  specialize (IH (seen ++ [op])).
  rewrite <- app_assoc, length_app, Nat.add_1_r in IH. exact IH.
Qed.

Lemma validate_operations_prefix (extra : list Operation) (operations : list Operation) :
  forall (i : nat) (decoded : list Operation),
    (i + length operations <= length decoded)%nat ->
    validate_operations i operations (decoded ++ extra) =
    validate_operations i operations decoded.
Proof.
  induction operations as [| op rest IH]; intros i decoded Hlen; [ reflexivity | ].
  cbn [validate_operations length] in *.
  rewrite nth_error_app1 by lia.
  rewrite IH by lia. reflexivity.
Qed.

(** X7. The comparison of [forgeOperationsRemotely], given the client's own
    operations as the decoded ones, accepts them exactly when no origination
    among them carries a script; otherwise it fails naming origination: an
    origination with a script does not pass even when it is echoed back
    unchanged. *)
Theorem validate_operations_echo (operations : list Operation) :
  (validate_operations 0 operations operations = Ok tt <->
   forall op, In op operations -> kind op = "origination" -> script op = None)
  /\ (validate_operations 0 operations operations = Ok tt
      \/ validate_operations 0 operations operations
         = Err (JsError "Forged origination failed validation.")).
Proof.
  pose proof (validate_operations_same operations []) as Hsame.
  cbn [length app] in Hsame. rewrite Hsame. clear Hsame.
  induction operations as [| op rest [IHiff IHcases]]; cbn [fold_right].
  - split; [ | now left ]. split; [ intros _ op [] | reflexivity ].
  - rewrite validate_operation_same.
    destruct (kind op =? "origination")%string eqn:Hkind.
    + destruct (script op) as [s | ] eqn:Hscript; cbn [Result_bind].
      * split; [ | now right ]. split; [ discriminate | ].
        intro H. apply String.eqb_eq in Hkind.
        specialize (H op (or_introl eq_refl) Hkind). congruence.
      * split; [ | exact IHcases ]. split.
        -- intros H o [<- | Hin] Ho; [ exact Hscript | ].
           exact (proj1 IHiff H o Hin Ho).
        -- intro H. apply IHiff. intros o Hin. apply H. now right.
    + cbn [Result_bind]. split; [ | exact IHcases ]. split.
      * intros H o [<- | Hin] Ho.
        -- rewrite Ho in Hkind. discriminate Hkind.
        -- exact (proj1 IHiff H o Hin Ho).
      * intro H. apply IHiff. intros o Hin. apply H. now right.
Qed.

(** X8. What that comparison does not look at.  A client operation of any
    kind other than transaction, delegation and origination, a reveal
    included, passes whatever was decoded in its place, even nothing.  For a
    transaction, only the decoded kind, fee, amount and destination matter:
    two decoded operations that agree on these compare alike, whatever
    their source, counter, limits or parameters.  Decoded operations beyond
    the number of client operations are ignored. *)
Theorem validate_operations_blind_spots :
  (forall (clientop : Operation) (serverop : option Operation),
     kind clientop <> "transaction" -> kind clientop <> "delegation" ->
     kind clientop <> "origination" ->
     validate_operation clientop serverop = Ok tt)
  /\ (forall clientop serverop serverop' : Operation,
        kind clientop = "transaction" ->
        kind serverop = kind serverop' -> fee serverop = fee serverop' ->
        amount serverop = amount serverop' ->
        destination serverop = destination serverop' ->
        validate_operation clientop (Some serverop)
        = validate_operation clientop (Some serverop'))
  /\ (forall operations decoded extra : list Operation,
        (length operations <= length decoded)%nat ->
        validate_operations 0 operations (decoded ++ extra)
        = validate_operations 0 operations decoded).
Proof.
  split; [ | split ].
  - intros clientop serverop Ht Hd Ho. unfold validate_operation.
    apply String.eqb_neq in Ht, Hd, Ho. now rewrite Ht, Hd, Ho.
  - intros clientop serverop serverop' Hkind Hk Hf Ha Hd. unfold validate_operation.
    rewrite Hkind. cbn [String.eqb Ascii.eqb Bool.eqb]. now rewrite Hk, Hf, Ha, Hd.
  - intros operations decoded extra Hlen.
    apply validate_operations_prefix. exact Hlen.
Qed.

(* ================================================================= *)
(** ** Applied results, continued *)

Section AppliedMore.
Context {constants : TezosConstants} {codec : TezosMessageCodec}
        {utils : TezosMessageUtils} {lang : TezosLanguageUtil}.
Context {World : Type} (node : Node World).

(** X9. When the preapply response parses to an empty array, reading its
    zeroth element fails: [sendOperation] ends with a type error after the
    preapply request, and nothing is injected. *)
Theorem sendOperation_empty_preapply_result (server : string)
    (operations : list Operation) (keyStore : KeyStore) (derivationPath : string)
    (head : TezosBlock) (forged : string) (sig : Buffer) (text : string)
    (w w1 w2 w3 : World) :
  node (getBlockHead server) w = (Ok head, w1) ->
  forgeOperations (hash head) operations = Ok forged ->
  ask_signature node keyStore derivationPath forged w1 = (Ok sig, w2) ->
  node (preapply_request server head operations sig) w2 = (Ok text, w3) ->
  parseApplied text = Some [] ->
  run node (sendOperation server operations keyStore derivationPath) w =
  {| result := Err TypeError;
     world := w3;
     trace := [getBlockHead server; sign_request keyStore derivationPath forged;
               preapply_request server head operations sig] |}.
Proof.
  intros Hhead Hforge Hsign Hpre Hparse.
  rewrite run_sendOperation. unfold pipeline. cbv zeta.
  rewrite Hhead, Hforge, Hsign, Hpre, Hparse. reflexivity.
Qed.

End AppliedMore.

(** The node of [Fixture] with a parser that reads the response as an empty
    array. *)
Lemma sendOperation_empty_preapply_result_witness :
  let out :=
    run Fixture.node
      (@sendOperation Fixture.constants (Fixture.codec []) Fixture.utils Probe.lang
         "srv" [Fixture.sample_transaction] (Fixture.keyStore Software) "")
      (Fixture.chain 5 true) in
  result out = Err TypeError
  /\ map stage_of (trace out) = [FetchHead; Sign; Preapply].
Proof.
  cbv zeta.
  rewrite (@sendOperation_empty_preapply_result Fixture.constants (Fixture.codec [])
             Fixture.utils Probe.lang Fixture.Chain Fixture.node "srv"
             [Fixture.sample_transaction] (Fixture.keyStore Software) ""
             Fixture.head _ [xaa; xbb] "applied"
             (Fixture.chain 5 true) (Fixture.chain 5 true) (Fixture.chain 5 true)
             (Fixture.chain 5 true) eq_refl eq_refl eq_refl eq_refl eq_refl).
  split; reflexivity.
Defined.

(** An object without a [toString] entry of its own prints as every plain
    object does. *)
Lemma Json_toString_plain_object (entries : list (string * Json)) :
  (forall v, ~ In ("toString", v) entries) ->
  Json_toString (JObject entries) = Ok "[object Object]".
Proof.
  intro Hno. cbn [Json_toString].
  destruct (existsb (fun field => (fst field =? "toString")%string) entries) eqn:Hex;
    [ | reflexivity ].
  apply existsb_exists in Hex. destruct Hex as ([key v] & Hin & Hkey).
  cbn [fst] in Hkey. apply String.eqb_eq in Hkey. subst key.
  elim (Hno v Hin).
Qed.

(** X10. What the two error messages of [checkAppliedOperationResults]
    carry.  When a nested entry is rejected and its metadata is an object
    (one that does not define [toString] itself), the message ends in the
    text every such object prints as, whatever else the object holds; when
    the top-level kind is rejected and the element has no id, the message
    ends in [undefined]. *)
Theorem checkAppliedOperationResults_messages :
  (forall (first : AlphaOperationsWithMetadata)
          (rest : list AlphaOperationsWithMetadata)
          (op : OperationContentsAndResult) (fields : list (string * Json)),
     (forall k, applied_kind first = Some k -> includes validAppliedKinds k = true) ->
     first_rejected (applied_contents first) = Some op ->
     metadata op = JObject fields ->
     (forall v, ~ In ("toString", v) fields) ->
     checkAppliedOperationResults (first :: rest)
     = Err (JsError "Could not apply operation because: [object Object]"))
  /\ (forall (first : AlphaOperationsWithMetadata)
             (rest : list AlphaOperationsWithMetadata) (k : string),
        applied_kind first = Some k ->
        includes validAppliedKinds k = false ->
        applied_id first = None ->
        checkAppliedOperationResults (first :: rest)
        = Err (JsError "Could not apply operation because undefined"))
  /\ checkAppliedOperationResults [Probe.applied_backtracked]
     = Err (JsError "Could not apply operation because: [object Object]").
Proof.
  split; [ | split ].
  - intros first rest op fields Htop Hfirst Hmeta Hplain.
    unfold checkAppliedOperationResults. cbn [nth_error].
    rewrite check_contents_first_rejected, Hfirst, Hmeta.
    rewrite (Json_toString_plain_object fields Hplain). cbn [Result_bind append].
    destruct (applied_kind first) as [k | ]; [ | reflexivity ].
    now rewrite (Htop k eq_refl).
  - intros first rest k Hkind Hbad Hid.
    unfold checkAppliedOperationResults. cbn [nth_error].
    now rewrite Hkind, Hbad, Hid.
  - reflexivity.
Qed.

(* ================================================================= *)
(** ** The reveal bundler, continued *)

From Stdlib Require Import DecimalZ DecimalPos.

Lemma parse_number_toString (n : number) :
  parse_number (number_toString n) = Some n.
Proof.
  unfold parse_number, number_toString.
  rewrite NilZero.isi.
  - cbn [option_map]. now rewrite DecimalZ.of_to.
  - destruct n as [| p | p]; cbn [Z.to_int]; try discriminate.
    intros [= H]. exact (Unsigned.to_uint_nonnil p H).
  - destruct n as [| p | p]; cbn [Z.to_int]; try discriminate.
    intros [= H]. exact (Unsigned.to_uint_nonnil p H).
Qed.

Lemma number_toString_inj (n m : number) :
  number_toString n = number_toString m -> n = m.
Proof.
  intro H. apply (f_equal parse_number) in H.
  rewrite !parse_number_toString in H. now injection H.
Qed.

Lemma numbered_counters_above (base : number) (operations : list Object) :
  forall (index : nat) (c : option string),
    In c (map (fun o => counter (fields o)) (numbered base index operations)) ->
    exists k : nat, (index <= k)%nat
                    /\ c = Some (number_toString (base + 2 + Z.of_nat k)).
Proof.
  induction operations as [| op rest IH]; intros index c Hin; [ destruct Hin | ].
  destruct Hin as [<- | Hin].
  - exists index. split; [ apply Nat.le_refl | reflexivity ].
  - destruct (IH (S index) c Hin) as (k & Hk & ->). exists k. split; [ lia | reflexivity ].
Qed.

Lemma numbered_counters_distinct (base : number) (operations : list Object) :
  forall index : nat,
    NoDup (map (fun o => counter (fields o)) (numbered base index operations)).
Proof.
  induction operations as [| op rest IH]; intro index; [ constructor | ].
  cbn [numbered map]. constructor; [ | apply IH ].
  intro Hin. destruct (numbered_counters_above _ _ _ _ Hin) as (k & Hk & Heq).
  cbn [counter set_counter fields] in Heq. injection Heq as Heq.
  apply number_toString_inj in Heq. lia.
Qed.

Section BundlerMore.
Context {World : Type} (node : Node World).

(** X11. In the bundle [appendRevealOperation] returns for an unrevealed
    key and pairwise distinct operation objects, the counters read back as
    the consecutive integers [base+1], [base+2], ... in the order of the
    group, whatever counters the input operations carried; in particular no
    two operations of the bundle share a counter. *)
Theorem appendRevealOperation_counters_consecutive (server : string)
    (keyStore : KeyStore) (accountHash : string) (base : number)
    (operations : list Object) (w w' : World) :
  node (isManagerKeyRevealedForAccount server accountHash) w = (Ok false, w') ->
  NoDup (map address operations) ->
  exists ops,
    result (run node (appendRevealOperation server keyStore accountHash base
                        operations) w) = Ok ops
    /\ length ops = S (length operations)
    /\ (forall (i : nat) (op : Object),
          nth_error ops i = Some op ->
          exists c, counter (fields op) = Some c
                    /\ parse_number c = Some (base + 1 + Z.of_nat i))
    /\ NoDup (map (fun o => counter (fields o)) ops).
Proof.
  intros H Hdistinct. rewrite run_appendRevealOperation, H. cbn [result].
  rewrite (renumber_distinct base operations Hdistinct).
  eexists. split; [ reflexivity | ]. split; [ | split ].
  - cbn [length]. now rewrite numbered_length.
  - intros [| i] op Hop.
    + injection Hop as <-. eexists. split; [ reflexivity | ].
      rewrite parse_number_toString. f_equal. cbn [Z.of_nat]. lia.
    + cbn [nth_error] in Hop.
      destruct (nth_error operations i) as [input | ] eqn:Hin.
      * rewrite (numbered_nth base operations 0 i input Hin) in Hop.
        injection Hop as <-. eexists. split; [ reflexivity | ].
        rewrite parse_number_toString. f_equal. lia.
      * exfalso. apply nth_error_None in Hin.
        assert (Hnone : nth_error (numbered base 0 operations) i = None).
        { apply nth_error_None. now rewrite numbered_length. }
        rewrite Hnone in Hop. discriminate Hop.
  - cbn [map]. constructor; [ | apply numbered_counters_distinct ].
    intro Hin. destruct (numbered_counters_above _ _ _ _ Hin) as (k & _ & Heq).
    cbn [counter fields bundled_reveal] in Heq. injection Heq as Heq.
    apply number_toString_inj in Heq. lia.
Qed.

End BundlerMore.

(** Counter 5, key not revealed, two operation objects that both carried
    counter 6. *)
Lemma appendRevealOperation_counters_consecutive_witness :
  exists ops,
    result (run Fixture.node
              (appendRevealOperation "srv" (Fixture.keyStore Software) "tz1Account" 5
                 Probe.two_objects)
              (Fixture.chain 5 false)) = Ok ops
    /\ length ops = 3%nat
    /\ map (fun o => counter (fields o)) ops = [Some "6"; Some "7"; Some "8"]
    /\ NoDup (map (fun o => counter (fields o)) ops).
Proof.
  assert (Hdistinct : NoDup (map address Probe.two_objects)).
  { cbn. constructor; [ intros [H | []]; discriminate H | ].
    constructor; [ intros [] | constructor ]. }
  destruct (@appendRevealOperation_counters_consecutive Fixture.Chain Fixture.node
              "srv" (Fixture.keyStore Software) "tz1Account" 5
              Probe.two_objects
              (Fixture.chain 5 false) (Fixture.chain 5 false) eq_refl Hdistinct)
    as (ops & Hres & Hlen & _ & Hcounters).
  exists ops. split; [ exact Hres | ]. split; [ exact Hlen | ].
  split; [ | exact Hcounters ].
  injection Hres as <-. reflexivity.
Defined.

(* ================================================================= *)
(** ** The public [send*] entry points, continued *)

Section SendMore.
Context {constants : TezosConstants} {codec : TezosMessageCodec}
        {utils : TezosMessageUtils} {lang : TezosLanguageUtil}.
Context {World : Type} (node : Node World).

(** The group a stackable call submits, by the answer to the
    revealed-check. *)
Lemma run_bundle_and_send (server : string) (keyStore : KeyStore)
    (derivationPath accountHash : string) (base : number) (op : Operation)
    (w : World) :
  run node (bundle_and_send server keyStore derivationPath accountHash base op) w =
  let check := isManagerKeyRevealedForAccount server accountHash in
  match node check w with
  | (Ok revealed, w') =>
      logged check
        (run node
           (sendOperation server
              (if revealed then [op]
               else [bundled_reveal keyStore accountHash base;
                     set_counter op (number_toString (base + 2))])
              keyStore derivationPath) w')
  | (Err e, w') => {| result := Err e; world := w'; trace := [check] |}
  end.
Proof.
  cbv zeta. unfold bundle_and_send, appendRevealOperation.
  change (Promise_bind (Promise_bind (await ?r) ?f) ?g)
    with (Promise_bind (await r) (fun x => Promise_bind (f x) g)).
  rewrite run_await_bind.
  destruct (node (isManagerKeyRevealedForAccount server accountHash) w)
    as [[[|] | e] w']; [ reflexivity | | reflexivity ].
  cbn [negb Promise_bind]. rewrite renumber_literal. reflexivity.
Qed.

(** Only the counter of a built operation depends on the reported counter. *)
Lemma built_next (keyStore : KeyStore) (call : StackableCall) (current : number) :
  set_counter (built keyStore call current) (number_toString (current + 2))
  = built keyStore call (current + 1).
Proof.
  replace (current + 2) with (current + 1 + 1) by lia.
  destruct call; reflexivity.
Qed.

Lemma run_perform (server : string) (keyStore : KeyStore) (derivationPath : string)
    (call : StackableCall) (w : World) :
  run node (perform server keyStore derivationPath call) w =
  let query := getCounterForAccount server (account_of keyStore call) in
  match node query w with
  | (Ok current, w1) =>
      logged query
        (run node
           (bundle_and_send server keyStore derivationPath (account_of keyStore call)
              current (built keyStore call current)) w1)
  | (Err e, w1) => {| result := Err e; world := w1; trace := [query] |}
  end.
Proof.
  cbv zeta.
  destruct call; cbn [perform account_of built];
    unfold sendUndelegationOperation, sendAccountOriginationOperation,
      sendContractPing;
    unfold sendTransactionOperation, sendDelegationOperation,
      sendOriginationOperation, sendContractInvocationOperation;
    cbv zeta; rewrite run_await_bind;
    match goal with
    | |- context [node ?q w] => destruct (node q w) as [[current | e] w1]
    end; try reflexivity;
    rewrite Z.add_simpl_r; reflexivity.
Qed.

Lemma step_of_sign_request (keyStore : KeyStore) (derivationPath forged : string) :
  step_of (sign_request keyStore derivationPath forged) = Signing.
Proof. unfold sign_request. destruct (storeType keyStore); reflexivity. Qed.

Lemma pipeline_steps (server : string) (operations : list Operation)
    (keyStore : KeyStore) (derivationPath : string) (w : World) :
  exists n : nat,
    map step_of (trace (pipeline node server operations keyStore derivationPath w))
    = firstn n [HeadFetch; Signing; Preapplication; Injection]
    /\ (forall r, result (pipeline node server operations keyStore derivationPath w)
                  = Ok r -> n = 4%nat).
Proof.
  unfold pipeline. cbv zeta.
  destruct (node (getBlockHead server) w) as [[head | e] w1].
  2: { exists 1%nat. split; [ reflexivity | discriminate ]. }
  destruct (forgeOperations (hash head) operations) as [forged | e].
  2: { exists 1%nat. split; [ reflexivity | discriminate ]. }
  destruct (ask_signature node keyStore derivationPath forged w1) as [[sig | e] w2].
  2: { exists 2%nat. split; [ | discriminate ].
       cbn [trace map]. now rewrite step_of_sign_request. }
  destruct (node (preapply_request server head operations sig) w2) as [[text | e] w3].
  2: { exists 3%nat. split; [ | discriminate ].
       cbn [trace map]. now rewrite step_of_sign_request. }
  destruct (parseApplied text) as [applied | ].
  2: { exists 3%nat. split; [ | discriminate ].
       cbn [trace map]. now rewrite step_of_sign_request. }
  destruct (checkAppliedOperationResults applied) as [[] | e].
  2: { exists 3%nat. split; [ | discriminate ].
       cbn [trace map]. now rewrite step_of_sign_request. }
  exists 4%nat.
  destruct (node (inject_request server forged sig) w3) as [[injected | e] w4];
    (split; [ cbn [trace map]; now rewrite step_of_sign_request | reflexivity ]).
Qed.

(** X12. When the counter query of a stackable call fails, the call fails
    with that failure and has asked for nothing else: no operation is
    forged, signed or posted. *)
Theorem stackable_send_counter_failure (server : string) (keyStore : KeyStore)
    (derivationPath : string) (call : StackableCall) (e : Exn) (w w1 : World) :
  node (getCounterForAccount server (account_of keyStore call)) w = (Err e, w1) ->
  run node (perform server keyStore derivationPath call) w =
  {| result := Err e;
     world := w1;
     trace := [getCounterForAccount server (account_of keyStore call)] |}.
Proof. intro H. rewrite run_perform. cbv zeta. now rewrite H. Qed.

(** X13. When the counter query is answered and the revealed-check fails,
    a stackable call fails with that failure after these two requests: the
    chain head is not fetched and nothing is signed or posted. *)
Theorem stackable_send_reveal_check_failure (server : string) (keyStore : KeyStore)
    (derivationPath : string) (call : StackableCall) (current : number) (e : Exn)
    (w w1 w2 : World) :
  node (getCounterForAccount server (account_of keyStore call)) w = (Ok current, w1) ->
  node (isManagerKeyRevealedForAccount server (account_of keyStore call)) w1
  = (Err e, w2) ->
  run node (perform server keyStore derivationPath call) w =
  {| result := Err e;
     world := w2;
     trace := [getCounterForAccount server (account_of keyStore call);
               isManagerKeyRevealedForAccount server (account_of keyStore call)] |}.
Proof.
  intros Hc Hr. rewrite run_perform. cbv zeta. rewrite Hc.
  rewrite run_bundle_and_send. cbv zeta. now rewrite Hr.
Qed.

(** X14. The group a stackable call hands to the pipeline, once the counter
    query reports [current] and the revealed-check answers [revealed]: the
    operation it built, alone and with counter [current+1], when the key is
    revealed; otherwise the bundler's reveal with counter [current+1]
    followed by that operation with counter [current+2] and every other
    field as built.  Every operation of the group has the queried account
    as its source. *)
Theorem stackable_send_group (server : string) (keyStore : KeyStore)
    (derivationPath : string) (call : StackableCall) (current : number)
    (revealed : bool) (w w1 w2 : World) :
  node (getCounterForAccount server (account_of keyStore call)) w = (Ok current, w1) ->
  node (isManagerKeyRevealedForAccount server (account_of keyStore call)) w1
  = (Ok revealed, w2) ->
  let group :=
    if revealed then [built keyStore call current]
    else [bundled_reveal keyStore (account_of keyStore call) current;
          built keyStore call (current + 1)] in
  run node (perform server keyStore derivationPath call) w =
  logged (getCounterForAccount server (account_of keyStore call))
    (logged (isManagerKeyRevealedForAccount server (account_of keyStore call))
       (run node (sendOperation server group keyStore derivationPath) w2))
  /\ map counter group =
     (if revealed then [Some (number_toString (current + 1))]
      else [Some (number_toString (current + 1));
            Some (number_toString (current + 2))])
  /\ (forall op, In op group -> source op = Some (account_of keyStore call)).
Proof.
  intros Hc Hr group. subst group. split; [ | split ].
  - rewrite run_perform. cbv zeta. rewrite Hc.
    rewrite run_bundle_and_send. cbv zeta. rewrite Hr, built_next. reflexivity.
  - destruct revealed; [ destruct call; reflexivity | ].
    rewrite <- built_next. destruct call; reflexivity.
  - intros op Hin.
    destruct revealed; destruct call; cbn [In] in Hin;
      repeat (destruct Hin as [<- | Hin]; [ reflexivity | ]); destruct Hin.
Qed.

Lemma logged_steps {A : Type} (r : Request) (o : Outcome World A) (n : nat)
    (rest : list Step) :
  map step_of (trace o) = firstn n rest ->
  map step_of (trace (logged r o)) = firstn (S n) (step_of r :: rest).
Proof. intro H. cbn [logged trace map firstn]. now rewrite H. Qed.

(** X15. The requests of a stackable call come in the order counter query,
    revealed-check, head fetch, signing, preapplication, injection, each at
    most once and stopping at the first failure; a call that succeeds has
    issued all six. *)
Theorem stackable_send_request_order (server : string) (keyStore : KeyStore)
    (derivationPath : string) (call : StackableCall) (w : World) :
  let out := run node (perform server keyStore derivationPath call) w in
  exists n : nat,
    map step_of (trace out)
    = firstn n [CounterQuery; RevealCheck; HeadFetch; Signing; Preapplication;
                Injection]
    /\ (forall r, result out = Ok r -> n = 6%nat).
Proof.
  cbv zeta. rewrite run_perform. cbv zeta.
  destruct (node (getCounterForAccount server (account_of keyStore call)) w)
    as [[current | e] w1].
  2: { exists 1%nat. split; [ reflexivity | discriminate ]. }
  rewrite run_bundle_and_send. cbv zeta.
  destruct (node (isManagerKeyRevealedForAccount server (account_of keyStore call)) w1)
    as [[revealed | e] w2].
  2: { exists 2%nat. split; [ reflexivity | discriminate ]. }
  rewrite run_sendOperation.
  match goal with
  | |- context [pipeline node server ?ops keyStore derivationPath w2] =>
      destruct (pipeline_steps server ops keyStore derivationPath w2) as (n & Hn & Hok)
  end.
  exists (S (S n)). split.
  - exact (logged_steps (getCounterForAccount server (account_of keyStore call)) _ (S n)
             [RevealCheck; HeadFetch; Signing; Preapplication; Injection]
             (logged_steps
                (isManagerKeyRevealedForAccount server (account_of keyStore call)) _ n
                [HeadFetch; Signing; Preapplication; Injection] Hn)).
  - intros r Hr. cbn [logged result] in Hr. now rewrite (Hok r Hr).
Qed.

(** X16. [sendKeyRevealOperation] never asks whether the key is already
    revealed: its requests are counter query, head fetch, signing,
    preapplication, injection, in that order.  [sendIdentityActivationOperation]
    asks for neither the counter nor the manager key: its requests are those
    of the pipeline alone. *)
Theorem unbundled_send_request_order (server : string) (keyStore : KeyStore)
    (derivationPath : string) (w : World) :
  (forall fee_ : option number,
     let out :=
       run node (sendKeyRevealOperation server keyStore fee_ derivationPath) w in
     exists n : nat,
       map step_of (trace out)
       = firstn n [CounterQuery; HeadFetch; Signing; Preapplication; Injection]
       /\ (forall r, result out = Ok r -> n = 5%nat))
  /\ (forall activationCode : string,
        let out :=
          run node (sendIdentityActivationOperation server keyStore activationCode
                      derivationPath) w in
        exists n : nat,
          map step_of (trace out)
          = firstn n [HeadFetch; Signing; Preapplication; Injection]
          /\ (forall r, result out = Ok r -> n = 4%nat)).
Proof.
  split.
  - intro fee_. cbv zeta. unfold sendKeyRevealOperation. cbv zeta.
    rewrite run_await_bind.
    destruct (node (getCounterForAccount server (publicKeyHash keyStore)) w)
      as [[current | e] w1].
    2: { exists 1%nat. split; [ reflexivity | discriminate ]. }
    rewrite run_sendOperation.
    match goal with
    | |- context [pipeline node server ?ops keyStore derivationPath w1] =>
        destruct (pipeline_steps server ops keyStore derivationPath w1) as (n & Hn & Hok)
    end.
    exists (S n). split.
    + exact (logged_steps (getCounterForAccount server (publicKeyHash keyStore)) _ n
               [HeadFetch; Signing; Preapplication; Injection] Hn).
    + intros r Hr. cbn [logged result] in Hr. now rewrite (Hok r Hr).
  - intro activationCode. cbv zeta. unfold sendIdentityActivationOperation. cbv zeta.
    rewrite run_sendOperation. apply pipeline_steps.
Qed.

End SendMore.



Section SendContracts.
Context {constants : TezosConstants} {codec : TezosMessageCodec}
        {utils : TezosMessageUtils} {lang : TezosLanguageUtil}.
Context {World : Type} (node : Node World).

(** X17. Parameters that are empty or hold white space only count as no
    parameters: [sendContractInvocationOperation] then behaves exactly as
    when [parameters] is undefined, whatever the parameter format, and
    neither the translator nor the parser decides the outcome. *)
Theorem sendContractInvocationOperation_blank_parameters (server : string)
    (keyStore : KeyStore) (to : string) (amount_ fee_ : number)
    (derivationPath : string) (storageLimit gasLimit : number)
    (parameters_ : option string) (format format' : TezosParameterFormat)
    (w : World) :
  (forall p, parameters_ = Some p -> trim_nonempty p = false) ->
  run node (sendContractInvocationOperation server keyStore to amount_ fee_
              derivationPath storageLimit gasLimit parameters_ format) w
  = run node (sendContractInvocationOperation server keyStore to amount_ fee_
                derivationPath storageLimit gasLimit None format') w.
Proof.
  intro Hblank. unfold sendContractInvocationOperation. rewrite !run_await_bind.
  destruct (node (getCounterForAccount server (publicKeyHash keyStore)) w)
    as [[current | e] w1]; [ | reflexivity ].
  cbv zeta. destruct parameters_ as [p | ]; [ | reflexivity ].
  rewrite (Hblank p eq_refl), andb_false_r. reflexivity.
Qed.



(** X20. With code and storage in the Micheline format that parse,
    [sendContractOriginationOperation] builds an origination whose script
    is the parsed code with the parsed storage when the parsed code is an
    object, an array, [true], a number other than zero or a non-empty
    string, and no script at all when it is [null], [false], [0] or an
    empty string; [spendable] is the caller's value, so a spendable
    contract is not refused. *)
Theorem sendContractOriginationOperation_script (server : string)
    (keyStore : KeyStore) (amount_ : number) (delegate_ : option string)
    (spendable_ delegatable_ : bool) (fee_ : number) (derivationPath : string)
    (storage_limit_ gas_limit_ : number) (code_ storage_ : string)
    (parsedCode parsedStorage : Json) (current : number) (w w1 : World) :
  JSON_parse code_ = Ok parsedCode ->
  JSON_parse storage_ = Ok parsedStorage ->
  node (getCounterForAccount server (publicKeyHash keyStore)) w = (Ok current, w1) ->
  exists op,
    run node (sendContractOriginationOperation server keyStore amount_ delegate_
                spendable_ delegatable_ fee_ derivationPath storage_limit_
                gas_limit_ code_ storage_ Micheline) w
    = logged (getCounterForAccount server (publicKeyHash keyStore))
        (run node (bundle_and_send server keyStore derivationPath
                     (publicKeyHash keyStore) current op) w1)
    /\ kind op = "origination"
    /\ script op =
       (let attached := Some {| code := parsedCode; storage := Some parsedStorage |} in
        match parsedCode with
        | JNull | JBool false | JNumber 0 | JString EmptyString => None
        | JBool true | JNumber _ | JString (String _ _) | JArray _ | JObject _ =>
            attached
        end)
    /\ spendable op = Some spendable_
    /\ manager_pubkey op = source op.
Proof.
  intros Hcode Hstorage Hc. unfold sendContractOriginationOperation.
  rewrite run_sync_bind, Hcode. cbn [Result_bind]. rewrite Hstorage.
  cbn [Result_bind fst snd]. unfold sendOriginationOperation.
  rewrite run_await_bind, Hc. cbv zeta. rewrite Z.add_simpl_r.
  eexists. split; [ reflexivity | ]. split; [ reflexivity | ].
  split; [ | split; reflexivity ].
  cbn [script].
  destruct parsedCode as [ | [|] | [| n | n] | [| first rest] | items | entries];
    reflexivity.
Qed.

End SendContracts.

(** A node that refuses the counter query. *)
Lemma stackable_send_counter_failure_witness :
  run (Probe.refusing Probe.is_counter_query)
    (@perform Fixture.constants (Fixture.codec []) Fixture.utils Fixture.lang
       "srv" (Fixture.keyStore Software) "" (Transaction "tz1Dest" 10000000 100000))
    (Fixture.chain 5 true)
  = {| result := Err (Failure "connection refused");
       world := Fixture.chain 5 true;
       trace := [getCounterForAccount "srv" "tz1Account"] |}.
Proof.
  exact (@stackable_send_counter_failure Fixture.constants (Fixture.codec [])
           Fixture.utils Fixture.lang Fixture.Chain
           (Probe.refusing Probe.is_counter_query) "srv" (Fixture.keyStore Software) ""
           (Transaction "tz1Dest" 10000000 100000) (Failure "connection refused")
           (Fixture.chain 5 true) (Fixture.chain 5 true) eq_refl).
Defined.

(** A node that answers the counter query and refuses the revealed-check,
    asked about a delegator other than the key store's account. *)
Lemma stackable_send_reveal_check_failure_witness :
  run (Probe.refusing Probe.is_reveal_check)
    (@perform Fixture.constants (Fixture.codec []) Fixture.utils Fixture.lang
       "srv" (Fixture.keyStore Hardware) "44'"
       (Delegation "KT1Delegator" (Some "tz1Baker") None))
    (Fixture.chain 5 false)
  = {| result := Err (Failure "connection refused");
       world := Fixture.chain 5 false;
       trace := [getCounterForAccount "srv" "KT1Delegator";
                 isManagerKeyRevealedForAccount "srv" "KT1Delegator"] |}.
Proof.
  exact (@stackable_send_reveal_check_failure Fixture.constants (Fixture.codec [])
           Fixture.utils Fixture.lang Fixture.Chain
           (Probe.refusing Probe.is_reveal_check) "srv" (Fixture.keyStore Hardware) "44'"
           (Delegation "KT1Delegator" (Some "tz1Baker") None) 5
           (Failure "connection refused")
           (Fixture.chain 5 false) (Fixture.chain 5 false) (Fixture.chain 5 false)
           eq_refl eq_refl).
Defined.

(** Removing a delegation with counter 5 and a key not revealed. *)
Lemma stackable_send_group_witness :
  exists group,
    run Fixture.node
      (@perform Fixture.constants (Fixture.codec []) Fixture.utils Fixture.lang
         "srv" (Fixture.keyStore Software) "" (Undelegation "tz1Account" None))
      (Fixture.chain 5 false)
    = logged (getCounterForAccount "srv" "tz1Account")
        (logged (isManagerKeyRevealedForAccount "srv" "tz1Account")
           (run Fixture.node
              (@sendOperation Fixture.constants (Fixture.codec []) Fixture.utils
                 Fixture.lang "srv" group (Fixture.keyStore Software) "")
              (Fixture.chain 5 false)))
    /\ map kind group = ["reveal"; "delegation"]
    /\ map counter group = [Some "6"; Some "7"]
    /\ map delegate group = [None; None].
Proof.
  destruct (@stackable_send_group Fixture.constants (Fixture.codec [])
              Fixture.utils Fixture.lang Fixture.Chain Fixture.node
              "srv" (Fixture.keyStore Software) "" (Undelegation "tz1Account" None)
              5 false (Fixture.chain 5 false) (Fixture.chain 5 false)
              (Fixture.chain 5 false) eq_refl eq_refl) as (Hrun & Hcounters & _).
  eexists. split; [ exact Hrun | ]. split; [ reflexivity | ].
  split; [ exact Hcounters | reflexivity ].
Defined.

(** Parameters of three spaces. *)
Lemma sendContractInvocationOperation_blank_parameters_witness :
  run Fixture.node
    (@sendContractInvocationOperation Fixture.constants (Fixture.codec [])
       Fixture.utils Probe.lang "srv" (Fixture.keyStore Software) "KT1Contract" 0 1500
       "" 300 10600 (Some "   ") Michelson)
    (Fixture.chain 5 true)
  = run Fixture.node
      (@sendContractInvocationOperation Fixture.constants (Fixture.codec [])
         Fixture.utils Probe.lang "srv" (Fixture.keyStore Software) "KT1Contract" 0 1500
         "" 300 10600 None Micheline)
      (Fixture.chain 5 true).
Proof.
  refine (@sendContractInvocationOperation_blank_parameters Fixture.constants
            (Fixture.codec []) Fixture.utils Probe.lang Fixture.Chain Fixture.node
            "srv" (Fixture.keyStore Software) "KT1Contract" 0 1500 "" 300 10600
            (Some "   ") Michelson Micheline (Fixture.chain 5 true) _).
  intros p [= <-]. reflexivity.
Defined.


(** Contract code that parses to an object, and contract code that parses
    to [null]. *)
Lemma sendContractOriginationOperation_script_witness :
  (exists op,
     run Fixture.node
       (@sendContractOriginationOperation Fixture.constants (Fixture.codec [])
          Fixture.utils Probe.lang "srv" (Fixture.keyStore Software) 0 None true false
          1266 "" 277 10160 "{}" "{}" Micheline)
       (Fixture.chain 5 true)
     = logged (getCounterForAccount "srv" "tz1Account")
         (run Fixture.node
            (@bundle_and_send Fixture.constants (Fixture.codec []) Fixture.utils
               Probe.lang "srv" (Fixture.keyStore Software) "" "tz1Account" 5 op)
            (Fixture.chain 5 true))
     /\ kind op = "origination"
     /\ script op = Some {| code := JObject []; storage := Some (JObject []) |}
     /\ spendable op = Some true)
  /\ (exists op,
        run Fixture.node
          (@sendContractOriginationOperation Fixture.constants (Fixture.codec [])
             Fixture.utils Probe.lang "srv" (Fixture.keyStore Software) 0 None true
             false 1266 "" 277 10160 "null" "{}" Micheline)
          (Fixture.chain 5 true)
        = logged (getCounterForAccount "srv" "tz1Account")
            (run Fixture.node
               (@bundle_and_send Fixture.constants (Fixture.codec []) Fixture.utils
                  Probe.lang "srv" (Fixture.keyStore Software) "" "tz1Account" 5 op)
               (Fixture.chain 5 true))
        /\ kind op = "origination"
        /\ script op = None
        /\ spendable op = Some true).
Proof.
  split.
  - destruct (@sendContractOriginationOperation_script Fixture.constants
                (Fixture.codec []) Fixture.utils Probe.lang Fixture.Chain Fixture.node
                "srv" (Fixture.keyStore Software) 0 None true false 1266 "" 277 10160
                "{}" "{}" (JObject []) (JObject []) 5
                (Fixture.chain 5 true) (Fixture.chain 5 true) eq_refl eq_refl eq_refl)
      as (op & Hrun & Hkind & Hscript & Hspendable & _).
    exists op. split; [ exact Hrun | ]. split; [ exact Hkind | ].
    split; [ exact Hscript | exact Hspendable ].
  - destruct (@sendContractOriginationOperation_script Fixture.constants
                (Fixture.codec []) Fixture.utils Probe.lang Fixture.Chain Fixture.node
                "srv" (Fixture.keyStore Software) 0 None true false 1266 "" 277 10160
                "null" "{}" JNull (JObject []) 5
                (Fixture.chain 5 true) (Fixture.chain 5 true) eq_refl eq_refl eq_refl)
      as (op & Hrun & Hkind & Hscript & Hspendable & _).
    exists op. split; [ exact Hrun | ]. split; [ exact Hkind | ].
    split; [ exact Hscript | exact Hspendable ].
Defined.
